(** * universal-pdf-converter: the conversion pipeline of the Express server

    A shallow embedding of the server side of the converter (the functions
    [detectAndConvertEncoding], [convertToImage], [createTextImage],
    [createErrorImage], [calculateCompressionSettings] and the handlers of
    [POST /convert] and [DELETE /delete/:filename]) and the properties that
    the specification states about them; then of the upload storage and
    [POST /upload], of the page script ([updateSizePreview], [convertToPDF],
    [removeFile]) and of the serverless handler of [api/index.js], with
    further properties of the code.

    Conventions of the embedding.
    - A JavaScript string is the list of its UTF-16 code units ([jsstring]);
      [length] is therefore JavaScript's [.length].
    - A JavaScript number that holds a size ratio is an exact rational
      ([Qc]); the integers of the code (qualities, byte counts) are [Z], [N]
      or [nat].
    - A call into a library (jschardet, iconv-lite, mammoth, xlsx, sharp,
      pdf-lib, the file system) is a field of an environment record; its
      result is a [result], [Throw] standing for a raised exception.
    - The Hangul literals of the server file are stored damaged (each UTF-8
      byte re-encoded as a character of its own); they are read here as the
      Hangul text they encode, so that the class written with the two damaged
      ends of the syllable block is the block U+AC00..U+D7A3. *)

From Stdlib Require Import ZArith NArith QArith Qcanon String Ascii List Lia.
From Stdlib Require Import DecimalString DecimalNat Qround Lqa.
From stdpp Require Import base decidable numbers list strings gmap.
Import ListNotations.

Open Scope string_scope.
Open Scope list_scope.

(** ** JavaScript strings *)

Module Js.

Definition jschar := N.
Definition jsstring := list jschar.

(** An ASCII literal of the source. *)
Definition lit (s : string) : jsstring :=
  map N_of_ascii (list_ascii_of_string s).

(** Decoder for the literals that hold Hangul: well-formed UTF-8 bytes of
    the basic plane to code units. *)
Fixpoint utf8_units (fuel : nat) (bs : list N) : jsstring :=
  match fuel with
  | O => []
  | S fuel' =>
    match bs with
    | [] => []
    | b0 :: r0 =>
      if (b0 <? 128)%N then b0 :: utf8_units fuel' r0
      else if (b0 <? 224)%N then
        match r0 with
        | b1 :: r1 =>
          ((b0 - 192) * 64 + (b1 - 128))%N :: utf8_units fuel' r1
        | [] => []
        end
      else
        match r0 with
        | b1 :: b2 :: r2 =>
          ((b0 - 224) * 4096 + (b1 - 128) * 64 + (b2 - 128))%N
            :: utf8_units fuel' r2
        | _ => []
        end
    end
  end.

Definition utf8 (s : string) : jsstring :=
  utf8_units (String.length s) (lit s).

(** [\s] of a JavaScript regular expression, which is also what [trim]
    removes. *)
Definition is_space (c : jschar) : bool :=
  ((9 <=? c) && (c <=? 13) || (c =? 32) || (c =? 160) || (c =? 5760)
   || (8192 <=? c) && (c <=? 8202) || (c =? 8232) || (c =? 8233)
   || (c =? 8239) || (c =? 8287) || (c =? 12288) || (c =? 65279))%N.

(** [[a-zA-Z]] and [[a-zA-Z0-9]]. *)
Definition is_letter (c : jschar) : bool :=
  ((65 <=? c) && (c <=? 90) || (97 <=? c) && (c <=? 122))%N.

Definition is_digit (c : jschar) : bool := ((48 <=? c) && (c <=? 57))%N.

Definition is_alnum (c : jschar) : bool := is_letter c || is_digit c.

(** The Hangul syllable block, U+AC00..U+D7A3. *)
Definition is_hangul (c : jschar) : bool :=
  ((44032 <=? c) && (c <=? 55203))%N.

Definition nonempty (s : jsstring) : bool :=
  match s with [] => false | _ => true end.

Fixpoint drop_spaces (s : jsstring) : jsstring :=
  match s with
  | c :: r => if is_space c then drop_spaces r else s
  | [] => []
  end.

Definition trim (s : jsstring) : jsstring :=
  rev (drop_spaces (rev (drop_spaces s))).

(** [s.replace(/c/g, by)] for a single character [c]. *)
Definition replace_char (c : jschar) (by_ : jsstring) (s : jsstring)
  : jsstring :=
  flat_map (fun x => if (x =? c)%N then by_ else [x]) s.

(** [s.replace(/[class]/g, '')]. *)
Definition remove_class (cls : jschar -> bool) (s : jsstring) : jsstring :=
  List.filter (fun c => negb (cls c)) s.

(** [s.split(/\s+/)]: the pieces between the runs of white space; a run at
    either end leaves an empty piece there, and the empty string gives one
    empty piece. [cur] is the piece being read, reversed. *)
Fixpoint split_ws_from (s : jsstring) (cur : jsstring) (in_ws : bool)
  : list jsstring :=
  match s with
  | [] => [rev cur]
  | c :: r =>
    if is_space c then
      if in_ws then split_ws_from r cur true
      else rev cur :: split_ws_from r [] true
    else split_ws_from r (c :: cur) false
  end.

Definition split_ws (s : jsstring) : list jsstring :=
  split_ws_from s [] false.

(** [s.split(sep)] for a single character separator. *)
Fixpoint split_char_from (sep : jschar) (s : jsstring) (cur : jsstring)
  : list jsstring :=
  match s with
  | [] => [rev cur]
  | c :: r =>
    if (c =? sep)%N then rev cur :: split_char_from sep r []
    else split_char_from sep r (c :: cur)
  end.

Definition split_char (sep : jschar) (s : jsstring) : list jsstring :=
  split_char_from sep s [].

(** [s.replace(/\s+/g, ' ')]. *)
Fixpoint collapse_ws_from (s : jsstring) (in_ws : bool) : jsstring :=
  match s with
  | [] => []
  | c :: r =>
    if is_space c then
      if in_ws then collapse_ws_from r true
      else 32%N :: collapse_ws_from r true
    else c :: collapse_ws_from r false
  end.

Definition collapse_ws (s : jsstring) : jsstring := collapse_ws_from s false.

(** [s.match(/[class]{n,}/g) || []]: the maximal runs of characters of the
    class that have at least [n] characters, from left to right. A greedy
    match takes a whole run; a run that is too short fails at each of its
    positions. [cur] is the run being read, reversed. *)
Definition emit_run (n : nat) (cur : jsstring) : list jsstring :=
  if (n <=? length cur)%nat && nonempty cur then [rev cur] else [].

Fixpoint match_runs_from (cls : jschar -> bool) (n : nat) (s : jsstring)
  (cur : jsstring) : list jsstring :=
  match s with
  | [] => emit_run n cur
  | c :: r =>
    if cls c then match_runs_from cls n r (c :: cur)
    else emit_run n cur ++ match_runs_from cls n r []
  end.

Definition match_runs (cls : jschar -> bool) (n : nat) (s : jsstring)
  : list jsstring :=
  match_runs_from cls n s [].

(** [arr.join(sep)]. *)
Fixpoint join (sep : jsstring) (l : list jsstring) : jsstring :=
  match l with
  | [] => []
  | [x] => x
  | x :: r => x ++ sep ++ join sep r
  end.

(** Decimal text of a natural number, as a template literal prints it. *)
Definition of_nat (n : nat) : jsstring :=
  lit (NilEmpty.string_of_uint (Nat.to_uint n)).

End Js.

Export Js.

(** ** Exceptions *)

Record JsError := { message : string }.

Inductive result (A : Type) : Type :=
| Ok (a : A)
| Throw (e : JsError).

Arguments Ok {A} a.
Arguments Throw {A} e.

(** [try { body } catch (e) { handler(e) }] for a body without state. *)
Definition try_catch {A} (body : result A) (handler : JsError -> result A)
  : result A :=
  match body with
  | Ok a => Ok a
  | Throw e => handler e
  end.

Definition bind_result {A B} (m : result A) (k : A -> result B) : result B :=
  match m with
  | Ok a => k a
  | Throw e => Throw e
  end.

(** ** CompressionPlanner: [calculateCompressionSettings] *)

Module Compression.

Local Open Scope Z_scope.

Definition qc (n : Z) (d : positive) : Qc := Q2Qc (n # d).

Record Settings := { quality : Z; compressionRatio : Qc }.

(** A number is truthy when it is not zero; [undefined] is falsy. *)
Definition truthy (x : option Qc) : bool :=
  match x with
  | Some q => negb (bool_decide (q = 0%Qc))
  | None => false
  end.

Definition gt (x y : Qc) : bool := bool_decide (y < x)%Qc.

(** The chain of [if]s of the custom tier. *)
Definition qualityOfRatio (r : Qc) : Z :=
  if gt r (qc 9 10) then 95
  else if gt r (qc 7 10) then 85
  else if gt r (qc 5 10) then 70
  else if gt r (qc 3 10) then 55
  else 40.

Definition calculateCompressionSettings (compressionType : string)
  (targetSizeKB : option Qc) (currentSizeKB : Qc) : Settings :=
  let '(q, r) :=
    if String.eqb compressionType "low" then (95, qc 9 10)
    else if String.eqb compressionType "medium" then (80, qc 7 10)
    else if String.eqb compressionType "high" then (60, qc 5 10)
    else if String.eqb compressionType "custom" then
      match targetSizeKB with
      | Some t =>
        if truthy targetSizeKB && truthy (Some currentSizeKB) then
          let r := (t / currentSizeKB)%Qc in (qualityOfRatio r, r)
        else (80, 1%Qc)
      | None => (80, 1%Qc)
      end
    else (80, qc 7 10) in
  {| quality := Z.max 10 (Z.min 100 q); compressionRatio := r |}.

End Compression.

(** ** TextLayoutEngine: the layout part of [createTextImage] *)

Module Layout.

(** The fixed texts of [createTextImage]. *)
Definition EMPTY_TEXT : jsstring := utf8 "내용이 비어 있습니다.".

Definition MORE_LINES_TEXT : jsstring :=
  [10; 10]%N ++ utf8 "... (더 많은 내용이 잘렸습니다)".

(** [!text || text.trim().length === 0]. *)
Definition blank (text : jsstring) : bool := negb (nonempty (trim text)).

(** [[\x00-\x08\x0B\x0C\x0E-\x1F\x7F]]. *)
Definition is_control (c : jschar) : bool :=
  ((c <=? 8) || (c =? 11) || (c =? 12) || (14 <=? c) && (c <=? 31)
   || (c =? 127))%N.

(** The chain of [replace] calls that escapes the markup characters. *)
Definition escape_markup (s : jsstring) : jsstring :=
  replace_char 39%N (lit "&#39;")
    (replace_char 34%N (lit "&quot;")
      (replace_char 62%N (lit "&gt;")
        (replace_char 60%N (lit "&lt;")
          (replace_char 38%N (lit "&amp;") s)))).

(** [cleanText]. *)
Definition cleanText (text : jsstring) : jsstring :=
  escape_markup (remove_class is_control (take 3000 text)).

Definition maxLineLength : nat := 70.

(** The [for (const word of words)] loop; the state is [lines] and
    [currentLine]. *)
Fixpoint wrap_loop (words : list jsstring) (lines : list jsstring)
  (currentLine : jsstring) : list jsstring * jsstring :=
  match words with
  | [] => (lines, currentLine)
  | word :: rest =>
    if (length (currentLine ++ lit " " ++ word) <=? maxLineLength)%nat then
      wrap_loop rest lines
        (if nonempty currentLine then currentLine ++ lit " " ++ word
         else word)
    else if nonempty currentLine then
      wrap_loop rest (lines ++ [currentLine]) word
    else
      wrap_loop rest (lines ++ [take maxLineLength word])
        (drop maxLineLength word)
  end.

(** The loop followed by the push of the last line. *)
Definition wrap_words (words : list jsstring) : list jsstring :=
  let '(lines, currentLine) := wrap_loop words [] [] in
  if nonempty currentLine then lines ++ [currentLine] else lines.

(** What the page shows: the title, the lines drawn one under the other and
    the marker drawn below them. *)
Record TextPage := {
  title : jsstring;
  displayLines : list jsstring;
  moreLinesText : jsstring
}.

Definition escape_title (fileType : jsstring) : jsstring :=
  replace_char 62%N (lit "&gt;")
    (replace_char 60%N (lit "&lt;")
      (replace_char 38%N (lit "&amp;") fileType)).

(** The text that is rendered: the text of the call, or the fixed text
    when that one is empty or blank. *)
Definition effectiveText (text : jsstring) : jsstring :=
  if blank text then EMPTY_TEXT else text.

(** [lines] of [createTextImage] for the text it is called with. *)
Definition textLines (text : jsstring) : list jsstring :=
  wrap_words (split_ws (cleanText (effectiveText text))).

(** The page description that [createTextImage] hands to the renderer. *)
Definition layoutPage (text fileType : jsstring) : TextPage :=
  let lines := textLines text in
  {| title := escape_title fileType;
     displayLines := take 40 lines;
     moreLinesText :=
       if (40 <? length lines)%nat then MORE_LINES_TEXT else [] |}.

(** A text without the spaces that join words, to compare the characters
    of the lines with those of the words. *)
Definition unspaced (s : jsstring) : jsstring :=
  List.filter (fun c => negb (c =? 32)%N) s.

(** A line that fits the budget, or else holds no white space. *)
Definition fitsOrToken (line : jsstring) : bool :=
  (length line <=? maxLineLength)%nat || negb (existsb is_space line).

End Layout.

(** ** EncodingRecovery: [detectAndConvertEncoding] *)

Definition buffer := list N.

Module Encoding.

Record Env := {
  (** [jschardet.detect(buffer).encoding]; [None] is [null]. *)
  jschardet_detect : buffer -> result (option string);
  iconv_encodingExists : string -> result bool;
  iconv_decode : buffer -> string -> result jsstring;
  (** [buffer.toString('utf8')], which replaces what it cannot decode. *)
  toString_utf8 : buffer -> jsstring
}.

(** The two Western labels that are taken for misdetected Korean. *)
Definition remap (encoding : option string) : option string :=
  match encoding with
  | Some e =>
    if String.eqb e "windows-1252" || String.eqb e "ISO-8859-1"
    then Some "euc-kr" else Some e
  | None => None
  end.

Definition encodingsToTry (encoding : option string) : list (option string) :=
  [encoding; Some "utf8"; Some "euc-kr"; Some "cp949"; Some "iso-2022-kr"].

(** [decoded && (decoded.match(/[가-힣]/) || decoded.match(/[a-zA-Z0-9]/))]. *)
Definition looksReasonable (decoded : jsstring) : bool :=
  nonempty decoded && (existsb is_hangul decoded || existsb is_alnum decoded).

(** The body of the inner [try]: [Some decoded] when it returns from the
    function, [None] when it falls through to the next encoding. *)
Definition attempt (env : Env) (buf : buffer) (enc : option string)
  : result (option jsstring) :=
  match enc with
  | None => Ok None
  | Some e =>
    if String.eqb e "" then Ok None
    else
      bind_result (iconv_encodingExists env e) (fun known =>
        if known : bool then
          bind_result (iconv_decode env buf e) (fun decoded =>
            if looksReasonable decoded then Ok (Some decoded) else Ok None)
        else Ok None)
  end.

(** The [for (const enc of encodingsToTry)] loop with its
    [catch (err) { continue; }]. *)
Fixpoint tryEncodings (env : Env) (buf : buffer) (encs : list (option string))
  : result (option jsstring) :=
  match encs with
  | [] => Ok None
  | enc :: rest =>
    match try_catch (attempt env buf enc) (fun _ => Ok None) with
    | Ok (Some decoded) => Ok (Some decoded)
    | Ok None => tryEncodings env buf rest
    | Throw e => Throw e
    end
  end.

Definition detectAndConvertEncoding (env : Env) (buf : buffer)
  : result jsstring :=
  try_catch
    (bind_result (jschardet_detect env buf) (fun detected =>
       bind_result (tryEncodings env buf (encodingsToTry (remap detected)))
         (fun found =>
            match found with
            | Some decoded => Ok decoded
            | None => Ok (toString_utf8 env buf)
            end)))
    (fun _ => Ok (toString_utf8 env buf)).

(** The candidates that the loop gets to see, and whether one is accepted. *)
Definition candidates (env : Env) (buf : buffer) : list (option string) :=
  match jschardet_detect env buf with
  | Ok detected => encodingsToTry (remap detected)
  | Throw _ => []
  end.

Definition accepted (env : Env) (buf : buffer) (enc : option string) : bool :=
  match attempt env buf enc with
  | Ok (Some _) => true
  | _ => false
  end.

End Encoding.

(** ** FormatDispatcher, spreadsheets: the text of the [.xlsx]/[.xls] branch *)

Module Excel.

Definition nl : jsstring := [10%N].

Definition MORE_ROWS : jsstring := utf8 "... (더 많은 행이 있습니다)" ++ nl.

Definition MORE_SHEETS (n : nat) : jsstring :=
  utf8 "... 그리고 " ++ of_nat n ++ utf8 "개의 시트가 더 있습니다.".

Definition NO_DATA : jsstring :=
  utf8 "Excel 파일에서 데이터를 추출할 수 없습니다.".

(** A decoded cell range, [{s: {r, c}, e: {r, c}}]. *)
Record Range := { s_r : nat; s_c : nat; e_r : nat; e_c : nat }.

(** ['A1:Z100']. *)
Definition DEFAULT_RANGE : Range :=
  {| s_r := 0; s_c := 0; e_r := 99; e_c := 25 |}.

Record Worksheet := {
  (** [XLSX.utils.sheet_to_csv(worksheet, {FS: '|'})]. *)
  sheet_to_csv : result jsstring;
  (** [worksheet['!ref']], decoded. *)
  ref : option Range;
  (** [cell.v.toString()] of the cell at a column and a row, when the cell
      and its value are there. *)
  cell_v : nat -> nat -> option jsstring
}.

Record Workbook := {
  SheetNames : list jsstring;
  Sheets : jsstring -> Worksheet
}.

Fixpoint jseqb (a b : jsstring) : bool :=
  match a, b with
  | [], [] => true
  | x :: a', y :: b' => (x =? y)%N && jseqb a' b'
  | _, _ => false
  end.

(** The loop over the first rows of the CSV text. *)
Definition csvRowsText (lines : list jsstring) : jsstring :=
  fold_left
    (fun content j =>
       let line := trim (nth j lines []) in
       if nonempty line && negb (jseqb line (repeat 124%N 10))
       then content ++ line ++ nl else content)
    (seq 0 (Nat.min (length lines) 20)) [].

Definition csvText (csvContent : jsstring) : jsstring :=
  let lines := split_char 10%N csvContent in
  csvRowsText lines ++ (if (20 <? length lines)%nat then MORE_ROWS else []).

(** The cells of one row in the manual extraction: the values and whether
    one of them was there. *)
Definition manualRow (ws : Worksheet) (range : Range) (R : nat)
  : list jsstring * bool :=
  fold_left
    (fun '(rowData, hasData) C =>
       match cell_v ws C R with
       | Some v => (rowData ++ [trim v], true)
       | None => (rowData ++ [[]], hasData)
       end)
    (seq (s_c range) (Nat.min (e_c range) (s_c range + 10) + 1 - s_c range))
    ([], false).

Definition manualText (ws : Worksheet) : jsstring :=
  let range := match ref ws with Some r => r | None => DEFAULT_RANGE end in
  fold_left
    (fun content R =>
       let '(rowData, hasData) := manualRow ws range R in
       if hasData : bool then content ++ join (lit " | ") rowData ++ nl
       else content)
    (seq (s_r range) (Nat.min (e_r range) (s_r range + 19) + 1 - s_r range))
    []
  ++ (if (s_r range + 19 <? e_r range)%nat then MORE_ROWS else []).

(** One turn of the loop over the sheets: what it appends. *)
Definition sheetText (sheetName : jsstring) (ws : Worksheet) : jsstring :=
  lit "[" ++ sheetName ++ lit "]" ++ nl
  ++ match sheet_to_csv ws with
     | Ok csvContent => csvText csvContent
     | Throw _ => manualText ws
     end
  ++ nl.

Definition excelContent (wb : Workbook) : jsstring :=
  let sheetNames := SheetNames wb in
  let content :=
    fold_left
      (fun content i =>
         let sheetName := nth i sheetNames [] in
         content ++ sheetText sheetName (Sheets wb sheetName))
      (seq 0 (Nat.min (length sheetNames) 3)) [] in
  let content :=
    if (3 <? length sheetNames)%nat
    then content ++ MORE_SHEETS (length sheetNames - 3) else content in
  if negb (nonempty (trim content)) then NO_DATA else content.

Record Env := {
  (** [XLSX.readFile] with the Korean code page, then without it. *)
  readFile_cp949 : string -> result Workbook;
  readFile_plain : string -> result Workbook;
  readFileSync : string -> result buffer;
  (** [XLSX.read(buffer, {type: 'buffer'})]. *)
  read_buffer : buffer -> result Workbook
}.

(** The three nested attempts to open the workbook. *)
Definition openWorkbook (env : Env) (filePath : string) : result Workbook :=
  try_catch (readFile_cp949 env filePath) (fun _ =>
    try_catch (readFile_plain env filePath) (fun _ =>
      bind_result (readFileSync env filePath) (read_buffer env))).

(** The text handed to [createTextImage]. *)
Definition excelText (env : Env) (filePath : string) : result jsstring :=
  bind_result (openWorkbook env filePath) (fun wb => Ok (excelContent wb)).

(** The same text, said by sheets and rows: the data rows that a sheet
    contributes, whether its rows were cut, and its block. *)
Definition keptCsvLine (line : jsstring) : bool :=
  nonempty line && negb (jseqb line (repeat 124%N 10)).

Definition manualRows (ws : Worksheet) : list jsstring :=
  let range := match ref ws with Some r => r | None => DEFAULT_RANGE end in
  flat_map
    (fun R =>
       let '(rowData, hasData) := manualRow ws range R in
       if hasData : bool then [join (lit " | ") rowData] else [])
    (seq (s_r range) (Nat.min (e_r range) (s_r range + 19) + 1 - s_r range)).

Definition sheetRows (ws : Worksheet) : list jsstring :=
  match sheet_to_csv ws with
  | Ok csvContent =>
    List.filter keptCsvLine (map trim (take 20 (split_char 10%N csvContent)))
  | Throw _ => manualRows ws
  end.

Definition rowsCutManual (ws : Worksheet) : bool :=
  let range := match ref ws with Some r => r | None => DEFAULT_RANGE end in
  (s_r range + 19 <? e_r range)%nat.

Definition rowsCut (ws : Worksheet) : bool :=
  match sheet_to_csv ws with
  | Ok csvContent => (20 <? length (split_char 10%N csvContent))%nat
  | Throw _ => rowsCutManual ws
  end.

Definition sheetBlock (rows : list jsstring) (cut : bool) (name : jsstring)
  : jsstring :=
  lit "[" ++ name ++ lit "]" ++ nl
  ++ concat (map (fun row => row ++ nl) rows)
  ++ (if cut then MORE_ROWS else []) ++ nl.

End Excel.

(** ** FormatDispatcher, legacy binary: the text of the [.hwp]/[.hwpx] branch *)

Module Hwp.

Definition nl : jsstring := [10%N].

Record Env := {
  (** [buffer.toString('utf8')] and [iconv.decode(buffer, encoding)]. *)
  toString_utf8 : buffer -> result jsstring;
  iconv_decode : buffer -> string -> result jsstring;
  (** [path.basename]. *)
  basename : string -> jsstring
}.

(** [text.match(/[가-힣][가-힣\s]{2,}/g) || []]: a match starts at a syllable
    and takes the whole run of syllables and white space after it, when
    that makes three characters or more. [cur] is the match being read,
    reversed; it is empty until a syllable starts one. *)
Definition emit3 (cur : jsstring) : list jsstring :=
  if (3 <=? length cur)%nat then [rev cur] else [].

Fixpoint hangulRuns_from (s : jsstring) (cur : jsstring) : list jsstring :=
  match s with
  | [] => emit3 cur
  | c :: r =>
    if nonempty cur then
      if is_hangul c || is_space c then hangulRuns_from r (c :: cur)
      else emit3 cur ++ hangulRuns_from r []
    else if is_hangul c then hangulRuns_from r [c]
    else hangulRuns_from r []
  end.

Definition hangulRuns (s : jsstring) : list jsstring := hangulRuns_from s [].

(** What a list of matches appends: nothing for [null] or no match. *)
Definition found (matches : list jsstring) : bool :=
  match matches with [] => false | _ => true end.

Definition appendMatches (matches : list jsstring) : jsstring :=
  if found matches
  then join (lit " ") matches ++ nl else [].

Definition encodingsToTry : list string := ["utf8"; "euc-kr"; "cp949"; "utf16le"].

(** Method 1: one turn of the loop over the encodings, with its
    [catch (err) { continue; }]. *)
Definition decodedText (env : Env) (buf : buffer) (encoding : string)
  : result jsstring :=
  if String.eqb encoding "utf8" then toString_utf8 env buf
  else iconv_decode env buf encoding.

Definition method1 (env : Env) (buf : buffer) : jsstring :=
  fold_left
    (fun extractedText encoding =>
       match decodedText env buf encoding with
       | Ok text => extractedText ++ appendMatches (hangulRuns text)
       | Throw _ => extractedText
       end)
    encodingsToTry [].

(** [buffer.toString('binary')]: one character per byte. *)
Definition binaryText (buf : buffer) : jsstring := buf.

(** [[\uAC00-\uD7AF\s]]. *)
Definition koreanClass (c : jschar) : bool :=
  ((44032 <=? c) && (c <=? 55215))%N || is_space c.

(** [[a-zA-Z0-9\s.,!?가-힣]]. *)
Definition asciiClass (c : jschar) : bool :=
  is_alnum c || is_space c
  || ((c =? 46) || (c =? 44) || (c =? 33) || (c =? 63))%N || is_hangul c.

Definition koreanMatches (buf : buffer) : list jsstring :=
  match_runs koreanClass 1 (binaryText buf).

Definition koreanKept (buf : buffer) : list jsstring :=
  List.filter
    (fun m => (3 <? length m)%nat && nonempty (trim m))
    (koreanMatches buf).

Definition asciiMatches (buf : buffer) : list jsstring :=
  match_runs asciiClass 4 (binaryText buf).

Definition asciiKept (buf : buffer) : list jsstring :=
  take 10
    (List.filter
       (fun m =>
          (4 <? length m)%nat && nonempty (trim m)
          && existsb (fun c => is_hangul c || is_letter c) m)
       (asciiMatches buf)).

(** Method 2: what the two scans of the binary string append. *)
Definition method2 (buf : buffer) : jsstring :=
  (if found (koreanMatches buf)
   then join (lit " ") (koreanKept buf) ++ nl else [])
  ++
  (if found (asciiMatches buf)
   then join (lit " ") (asciiKept buf) ++ nl else []).

(** [[\x00-\x1F\x7F-\x9F]]. *)
Definition is_c0c1 (c : jschar) : bool :=
  ((c <=? 31) || (127 <=? c) && (c <=? 159))%N.

Definition cleanUp (extractedText : jsstring) : jsstring :=
  trim (remove_class is_c0c1 (collapse_ws extractedText)).

(** [Math.round(buffer.length / 1024)]. *)
Definition roundKB (len : nat) : nat := (len + 512) / 1024.

Definition INFO (fileName : jsstring) (kb : nat) : jsstring :=
  utf8 "HWP 파일 정보:" ++ nl ++ utf8 "파일명: " ++ fileName ++ nl
  ++ utf8 "파일 크기: " ++ of_nat kb ++ lit " KB" ++ nl ++ nl
  ++ utf8 "이 파일은 한글과컴퓨터의 HWP 형식입니다." ++ nl
  ++ utf8 "텍스트 추출이 제한적일 수 있습니다." ++ nl ++ nl
  ++ utf8 "완전한 변환을 위해서는:" ++ nl
  ++ utf8 "1. 한글 프로그램에서 파일을 열어주세요" ++ nl
  ++ utf8 "2. 텍스트 형식(.txt)으로 저장 후 업로드해보세요" ++ nl
  ++ utf8 "3. 또는 Word 형식(.docx)으로 저장 후 업로드해보세요".

Definition HEADING : jsstring := utf8 "HWP 문서에서 추출된 텍스트:" ++ nl ++ nl.

Definition TRUNCATED : jsstring := nl ++ nl ++ utf8 "... (텍스트가 잘렸습니다)".

(** The last [if]: the notice or the salvage under its heading. *)
Definition emitted (fileName : jsstring) (bufLength : nat)
  (extractedText : jsstring) : jsstring :=
  if negb (nonempty extractedText) || (length extractedText <? 10)%nat then
    INFO fileName (roundKB bufLength)
  else
    HEADING ++ take 2000 extractedText
    ++ (if (2000 <? length extractedText)%nat then TRUNCATED else []).

(** The text handed to [createTextImage]. *)
Definition hwpText (env : Env) (filePath : string) (buf : buffer) : jsstring :=
  emitted (basename env filePath) (length buf)
    (cleanUp (method1 env buf ++ method2 buf)).

End Hwp.

(** ** Paths *)

Module Path.

(** [path.extname(p).toLowerCase()] for the names that the upload storage
    makes: the text from the last dot of the last segment on, empty when
    that segment has no dot or only a leading one. *)
Fixpoint last_segment_rev (rev_chars : list ascii) : list ascii :=
  match rev_chars with
  | [] => []
  | c :: r => if Ascii.eqb c "/" then [] else c :: last_segment_rev r
  end.

(** [ext_from_rev] reads the segment from its end; [seen] holds what was
    read, in the order of the name. *)
Fixpoint ext_from_rev (rev_segment : list ascii) (seen : list ascii)
  : list ascii :=
  match rev_segment with
  | [] => []
  | c :: r =>
    if Ascii.eqb c "."
    then match r with [] => [] | _ => c :: seen end
    else ext_from_rev r (c :: seen)
  end.

Definition lower (c : ascii) : ascii :=
  let n := N_of_ascii c in
  if ((65 <=? n) && (n <=? 90))%N then ascii_of_N (n + 32) else c.

Definition extname_lower (p : string) : string :=
  string_of_list_ascii
    (map lower
       (ext_from_rev (last_segment_rev (rev (list_ascii_of_string p))) [])).

(** [p.replace('.jpg', '.png')]: the first occurrence only. *)
Fixpoint replace_jpg (chars : list ascii) : list ascii :=
  match chars with
  | "."%char :: "j"%char :: "p"%char :: "g"%char :: r =>
    "."%char :: "p"%char :: "n"%char :: "g"%char :: r
  | c :: r => c :: replace_jpg r
  | [] => []
  end.

Definition pngPath (outputPath : string) : string :=
  string_of_list_ascii (replace_jpg (list_ascii_of_string outputPath)).

(** [path.join(__dirname, 'uploads', filename)] and the temporary image of
    a file, relative to the directory of the server. *)
Definition uploadPath (filename : string) : string :=
  String.append "uploads/" filename.

Definition tempImagePath (now : nat) : string :=
  String.append "temp/temp-"
    (String.append (NilEmpty.string_of_uint (Nat.to_uint now)) ".jpg").

End Path.

(** ** A monad for code that changes a state and may throw

    The state that a computation has reached when it throws is kept: a
    page added before the exception stays in the document. *)

Definition M (S A : Type) : Type := S -> S * result A.

Definition ret {S A} (a : A) : M S A := fun s => (s, Ok a).

Definition throw {S A} (e : JsError) : M S A := fun s => (s, Throw e).

Definition bind {S A B} (m : M S A) (k : A -> M S B) : M S B :=
  fun s =>
    match m s with
    | (s', Ok a) => k a s'
    | (s', Throw e) => (s', Throw e)
    end.

Definition tryM {S A} (body : M S A) (handler : JsError -> M S A) : M S A :=
  fun s =>
    match body s with
    | (s', Ok a) => (s', Ok a)
    | (s', Throw e) => handler e s'
    end.

Definition liftR {S A} (r : result A) : M S A := fun s => (s, r).

Definition gets {S A} (f : S -> A) : M S A := fun s => (s, Ok (f s)).

Definition modify {S} (f : S -> S) : M S unit := fun s => (f s, Ok tt).

Notation "'let!' x ':=' m 'in' k" := (bind m (fun x => k))
  (at level 10, x binder, k at level 200).

(** ** PageRenderer and FormatDispatcher: [convertToImage] and its helpers *)

Module Render.

Definition FS := gset string.

Inductive SvgContent :=
| TextSvg (page : Layout.TextPage)
| TitleSvg (fileType : jsstring) (textLength : nat)
| ErrorSvg (cleanMessage : jsstring).

Inductive SharpInput :=
| InFile (p : string)
| InSvg (svg : SvgContent)
| InBlank
| InComposite (overlay : SvgContent).

Inductive SharpFormat := Png | Jpeg (quality : Z).

Inductive ConvResult := RTrue | RFalse | RPdf.

Record Env := {
  encoding : Encoding.Env;
  excel : Excel.Env;
  hwp : Hwp.Env;
  readFileSync : string -> result buffer;
  (** [(await mammoth.extractRawText({path})).value]. *)
  mammoth_extractRawText : string -> result jsstring;
  (** The chain of [replace] calls of the HTML branch, which no property
      below looks into. *)
  html_to_text : jsstring -> jsstring;
  (** What a sharp pipeline throws, if it does. *)
  sharp_error : SharpInput -> SharpFormat -> option JsError
}.

Definition existsSync (p : string) : M FS bool :=
  gets (fun fs : FS => bool_decide (p ∈ fs)).

Definition unlinkSync (p : string) : M FS unit :=
  fun fs : FS =>
    if bool_decide (p ∈ fs) then (fs ∖ {[p]}, Ok tt)
    else (fs, Throw {| message := "ENOENT: no such file or directory" |}).

(** [await sharp(input).format(...).toFile(out)]. *)
Definition toFile (env : Env) (input : SharpInput) (format : SharpFormat)
  (out : string) : M FS unit :=
  fun fs : FS =>
    match sharp_error env input format with
    | None => ({[out]} ∪ fs, Ok tt)
    | Some e => (fs, Throw e)
    end.

(** [await sharp(input).format(...).toBuffer()]. *)
Definition toBuffer {S} (env : Env) (input : SharpInput)
  (format : SharpFormat) : M S unit :=
  match sharp_error env input format with
  | None => ret tt
  | Some e => throw e
  end.

Definition createSimpleTextImage (env : Env) (text : jsstring)
  (outputPath : string) (fileType : jsstring) : M FS ConvResult :=
  tryM
    (let! _ := toBuffer env InBlank Png in
     let! _ := toFile env (InComposite (TitleSvg fileType (length text)))
                 (Jpeg 95) outputPath in
     ret RTrue)
    (fun _ => ret RFalse).

Definition createTextImage (env : Env) (text : jsstring)
  (outputPath : string) (fileType : jsstring) : M FS ConvResult :=
  tryM
    (let png := Path.pngPath outputPath in
     let! _ := toFile env (InSvg (TextSvg (Layout.layoutPage text fileType)))
                 Png png in
     let! _ := toFile env (InFile png) (Jpeg 95) outputPath in
     let! _ := tryM (unlinkSync png) (fun _ => ret tt) in
     ret RTrue)
    (fun _ =>
       createSimpleTextImage env (Layout.effectiveText text) outputPath
         fileType).

Definition cleanMessage (errorMessage : jsstring) : jsstring :=
  replace_char 62%N (lit "&gt;")
    (replace_char 60%N (lit "&lt;")
      (replace_char 38%N (lit "&amp;") errorMessage)).

Definition createErrorImage (env : Env) (outputPath : string)
  (errorMessage : jsstring) : M FS ConvResult :=
  tryM
    (let! _ := toFile env (InSvg (ErrorSvg (cleanMessage errorMessage)))
                 (Jpeg 95) outputPath in
     ret RTrue)
    (fun _ =>
       let! _ := toFile env InBlank (Jpeg 95) outputPath in
       ret RTrue).

(** The diagnostic texts of the branches. *)
Definition DOCX_EMPTY : jsstring := utf8 "문서 내용을 읽을 수 없습니다.".
Definition DOCX_FAILED : jsstring := utf8 "DOCX 파일을 읽을 수 없습니다.".
Definition EXCEL_FAILED (e : JsError) : jsstring :=
  utf8 "Excel 파일 처리 오류: " ++ lit (message e).
Definition TEXT_FAILED : jsstring := utf8 "텍스트 파일을 읽을 수 없습니다.".
Definition HTML_FAILED : jsstring := utf8 "HTML 파일을 읽을 수 없습니다.".
Definition HWP_FAILED (e : JsError) : jsstring :=
  utf8 "HWP 파일 처리 오류: " ++ lit (message e).
Definition UNSUPPORTED (ext : string) : jsstring :=
  utf8 "지원하지 않는 파일 형식: " ++ lit ext.
Definition UNREADABLE (ext : string) : jsstring :=
  utf8 "파일을 읽을 수 없습니다: " ++ lit ext.
Definition CONVERSION_FAILED : jsstring :=
  utf8 "파일 변환 중 오류가 발생했습니다.".

Definition isImageExt (ext : string) : bool :=
  existsb (String.eqb ext)
    [".jpg"; ".jpeg"; ".png"; ".gif"; ".bmp"; ".tiff"; ".tif"; ".webp"].

(** The extraction of a branch: the text that it hands to
    [createTextImage], or what it throws. *)
Definition docxText (env : Env) (filePath : string) : result jsstring :=
  bind_result (mammoth_extractRawText env filePath) (fun value =>
    Ok (if nonempty value then value else DOCX_EMPTY)).

Definition txtText (env : Env) (filePath : string) : result jsstring :=
  bind_result (readFileSync env filePath) (fun buf =>
    Encoding.detectAndConvertEncoding (encoding env) buf).

Definition htmlText (env : Env) (filePath : string) : result jsstring :=
  bind_result (txtText env filePath) (fun htmlContent =>
    Ok (html_to_text env htmlContent)).

Definition hwpText (env : Env) (filePath : string) : result jsstring :=
  bind_result (readFileSync env filePath) (fun buf =>
    Ok (Hwp.hwpText (hwp env) filePath buf)).

(** A branch of the shape
    [try { text = ...; return await createTextImage(text, ...) }
     catch (error) { return await createErrorImage(...) }]. *)
Definition textBranch (env : Env) (extraction : result jsstring)
  (outputPath : string) (fileType : jsstring)
  (diagnostic : JsError -> jsstring) : M FS ConvResult :=
  tryM
    (let! text := liftR extraction in
     createTextImage env text outputPath fileType)
    (fun error => createErrorImage env outputPath (diagnostic error)).

Definition convertToImage (env : Env) (filePath outputPath : string)
  (fileType : string) : M FS ConvResult :=
  let ext := Path.extname_lower filePath in
  tryM
    (if isImageExt ext then
       let! _ := toFile env (InFile filePath) (Jpeg 95) outputPath in
       ret RTrue
     else if String.eqb ext ".docx" then
       textBranch env (docxText env filePath) outputPath (utf8 "Word 문서")
         (fun _ => DOCX_FAILED)
     else if String.eqb ext ".xlsx" || String.eqb ext ".xls" then
       textBranch env (Excel.excelText (excel env) filePath) outputPath
         (utf8 "Excel 문서") EXCEL_FAILED
     else if String.eqb ext ".txt" then
       textBranch env (txtText env filePath) outputPath (utf8 "텍스트 파일")
         (fun _ => TEXT_FAILED)
     else if String.eqb ext ".html" || String.eqb ext ".htm" then
       textBranch env (htmlText env filePath) outputPath (utf8 "HTML 문서")
         (fun _ => HTML_FAILED)
     else if String.eqb ext ".hwp" || String.eqb ext ".hwpx" then
       textBranch env (hwpText env filePath) outputPath (utf8 "HWP 문서")
         HWP_FAILED
     else if String.eqb ext ".pdf" then ret RPdf
     else
       tryM
         (let! textContent := liftR (txtText env filePath) in
          if nonempty textContent
             && existsb (fun c => is_hangul c || is_alnum c) textContent
          then createTextImage env textContent outputPath
                 (lit ext ++ utf8 " 파일")
          else createErrorImage env outputPath (UNSUPPORTED ext))
         (fun _ => createErrorImage env outputPath (UNREADABLE ext)))
    (fun _ => createErrorImage env outputPath CONVERSION_FAILED).

(** What is left of a branch whose extraction has thrown: the error image
    with the diagnostic of the branch, and the error image of the outer
    [catch] should drawing that one throw. *)
Definition diagnosed (env : Env) (outputPath : string)
  (diagnostic : jsstring) : M FS ConvResult :=
  tryM (createErrorImage env outputPath diagnostic)
    (fun _ => createErrorImage env outputPath CONVERSION_FAILED).

(** The branches that extract a text: the extension, the extraction and
    the diagnostic of the [catch]. *)
Definition textBranches (env : Env) (filePath : string)
  : list (string * (result jsstring * (JsError -> jsstring))) :=
  [ (".docx", (docxText env filePath, fun _ => DOCX_FAILED));
    (".xlsx", (Excel.excelText (excel env) filePath, EXCEL_FAILED));
    (".xls", (Excel.excelText (excel env) filePath, EXCEL_FAILED));
    (".txt", (txtText env filePath, fun _ => TEXT_FAILED));
    (".html", (htmlText env filePath, fun _ => HTML_FAILED));
    (".htm", (htmlText env filePath, fun _ => HTML_FAILED));
    (".hwp", (hwpText env filePath, HWP_FAILED));
    (".hwpx", (hwpText env filePath, HWP_FAILED)) ].

End Render.

(** ** PdfAssembler: the loop of [POST /convert] *)

Module Assembler.

Import Render.

Record FileInfo := {
  filename : string;
  originalname : string;
  size : N;
  mimetype : string;
  type : string
}.

(** The body of the request; an absent field is [None]. *)
Record ConvertRequest := {
  files : list FileInfo;
  compression : option string;
  targetSizeKB : option Qc;
  compressionRatio : option Qc
}.

Definition totalOriginalSize (fs : list FileInfo) : N :=
  fold_left (fun total fileInfo => (total + size fileInfo)%N) fs 0%N.

(** The call of [calculateCompressionSettings] in the handler. *)
Definition compressionSettings (req : ConvertRequest) : Compression.Settings :=
  Compression.calculateCompressionSettings
    (match compression req with Some c => c | None => "medium" end)
    (targetSizeKB req)
    (Q2Qc (Z.of_N (totalOriginalSize (files req)) # 1) / Q2Qc (1024 # 1))%Qc.

Definition PdfPage := N.

(** A page of the output document. The placement of the image on its page
    is arithmetic on the image size, which no property below looks into. *)
Inductive Page :=
| CopiedPage (page : PdfPage)
| ImagePage (source : string) (quality : Z)
| ErrorBanner (heading detail : string).

Record Env := {
  render : Render.Env;
  (** [PDFDocument.load(bytes)]: the pages of the document. *)
  pdf_load : buffer -> result (list PdfPage);
  (** [pdfDoc.copyPages(existingPdf, existingPdf.getPageIndices())]. *)
  pdf_copyPages : list PdfPage -> result (list PdfPage);
  (** What [pdfDoc.embedJpg] throws for the image made from a file, if it
      does. *)
  embedJpg_error : string -> Z -> option JsError;
  (** [Date.now()] at the time a file is processed. *)
  now : FileInfo -> nat
}.

Record LoopState := { doc : list Page; fs : FS }.

(** A computation on the files alone, run inside the loop. *)
Definition onFiles {A} (m : M FS A) : M LoopState A :=
  fun st =>
    let '(fs', r) := m (fs st) in ({| doc := doc st; fs := fs' |}, r).

Definition addPage (p : Page) : M LoopState unit :=
  modify (fun st => {| doc := doc st ++ [p]; fs := fs st |}).

Fixpoint addPages (ps : list PdfPage) : M LoopState unit :=
  match ps with
  | [] => ret tt
  | p :: rest => let! _ := addPage (CopiedPage p) in addPages rest
  end.

(** The [try] block of the loop. *)
Definition tryBlock (env : Env) (quality : Z) (fileInfo : FileInfo)
  : M LoopState unit :=
  let filePath := Path.uploadPath (filename fileInfo) in
  let ext := Path.extname_lower (filename fileInfo) in
  if String.eqb ext ".pdf" then
    let! existingPdfBytes := liftR (readFileSync (render env) filePath) in
    let! existingPdf := liftR (pdf_load env existingPdfBytes) in
    let! copiedPages := liftR (pdf_copyPages env existingPdf) in
    addPages copiedPages
  else
    let tempImagePath := Path.tempImagePath (now env fileInfo) in
    let! conversionResult :=
      onFiles (convertToImage (render env) filePath tempImagePath
                 (type fileInfo)) in
    let! present := onFiles (existsSync tempImagePath) in
    match conversionResult, present with
    | RTrue, true =>
      let! _ := toBuffer (render env) (InFile tempImagePath) (Jpeg quality) in
      let! _ :=
        liftR (match embedJpg_error env tempImagePath quality with
               | None => Ok tt
               | Some e => Throw e
               end) in
      let! _ := addPage (ImagePage tempImagePath quality) in
      onFiles (unlinkSync tempImagePath)
    | _, _ => ret tt
    end.

(** The [catch (fileError)] block. *)
Definition errorPage (fileInfo : FileInfo) (fileError : JsError) : Page :=
  ErrorBanner (String.append "Error processing: " (originalname fileInfo))
    (String.append "Error: " (message fileError)).

(** One turn of the loop. *)
Definition processFile (env : Env) (quality : Z) (fileInfo : FileInfo)
  : M LoopState unit :=
  let! found := onFiles (existsSync (Path.uploadPath (filename fileInfo))) in
  if found : bool then
    tryM (tryBlock env quality fileInfo)
      (fun fileError => addPage (errorPage fileInfo fileError))
  else ret tt.

Fixpoint convertLoop (env : Env) (quality : Z) (fileInfos : list FileInfo)
  : M LoopState unit :=
  match fileInfos with
  | [] => ret tt
  | fileInfo :: rest =>
    let! _ := processFile env quality fileInfo in
    convertLoop env quality rest
  end.

(** The document that a request assembles, from an empty document. *)
Definition assemble (env : Env) (req : ConvertRequest) (uploads : FS)
  : LoopState * result unit :=
  convertLoop env (Compression.quality (compressionSettings req)) (files req)
    {| doc := []; fs := uploads |}.

Definition missing (st : LoopState) (fileInfo : FileInfo) : bool :=
  negb (bool_decide (Path.uploadPath (filename fileInfo) ∈ fs st)).

Definition isPdf (fileInfo : FileInfo) : bool :=
  String.eqb (Path.extname_lower (filename fileInfo)) ".pdf".

End Assembler.

(** ** Which files a computation may touch *)

Module Frame.

Import Render.

(** A computation is confined to the paths of [P] when every other path is
    in the file system after it exactly when it was there before. [view]
    gives the file system of the state. *)
Definition confined {S A : Type} (view : S -> FS) (P : string -> Prop)
  (m : M S A) : Prop :=
  forall st p, ~ P p -> (p ∈ view (m st).1 <-> p ∈ view st).

(** The temporary image of a conversion and the intermediate image made
    from its name. *)
Definition scratch (outputPath : string) (p : string) : Prop :=
  p = outputPath \/ p = Path.pngPath outputPath.

End Frame.

(** ** What a file may contribute to the document *)

Module Contribution.

Import Render Assembler.

(** The pages that the PDF branch copies for a file, or what it throws. *)
Definition pdfOutcome (env : Env) (fileInfo : FileInfo)
  : result (list PdfPage) :=
  bind_result
    (readFileSync (render env) (Path.uploadPath (filename fileInfo)))
    (fun bytes => bind_result (pdf_load env bytes) (pdf_copyPages env)).

(** The most pages a file can add: none when it is missing, the pages of its
    document for a PDF (one page when it cannot be read), one otherwise. *)
Definition maxPages (env : Env) (st : LoopState) (fileInfo : FileInfo) : nat :=
  if missing st fileInfo then 0
  else if isPdf fileInfo then
    match pdfOutcome env fileInfo with
    | Ok copied => length copied
    | Throw _ => 1
    end
  else 1.

Definition sumPages (env : Env) (st : LoopState) (fileInfos : list FileInfo)
  : nat :=
  fold_right (fun fileInfo n => maxPages env st fileInfo + n) 0 fileInfos.

Definition countMissing (st : LoopState) (fileInfos : list FileInfo) : nat :=
  length (List.filter (missing st) fileInfos).

End Contribution.

(** ** Deletion: [DELETE /delete/:filename] *)

Module Deletion.

Inductive Body :=
| Success (msg : string)
| Failure (error : string).

Record Response := { status : nat; body : Body }.

Definition handler (filename : string) : M Render.FS Response :=
  tryM
    (let filePath := Path.uploadPath filename in
     let! found := Render.existsSync filePath in
     if found : bool then
       let! _ := Render.unlinkSync filePath in
       ret {| status := 200; body := Success "File deleted successfully" |}
     else ret {| status := 404; body := Failure "File not found" |})
    (fun error => ret {| status := 500; body := Failure (message error) |}).

Definition isError (r : Response) : bool :=
  match body r with Failure _ => true | Success _ => false end.

End Deletion.

(** ** Characters that carry content *)

Module Content.

(** A text without its white space: what is left to compare when lines are
    broken and joined again. *)
Definition solid (s : jsstring) : jsstring :=
  List.filter (fun c => negb (is_space c)) s.

(** The characters that would end or open markup inside an SVG text node
    or an attribute. *)
Definition is_markup (c : jschar) : bool :=
  ((c =? 60) || (c =? 62) || (c =? 34) || (c =? 39))%N.

End Content.

(** ** What a conversion leaves behind *)

Module Outcome.

Import Render.

(** Every normal result of the computation, with the files it leaves,
    satisfies [Q]. *)
Definition ensures (Q : FS -> ConvResult -> Prop) (m : M FS ConvResult)
  : Prop :=
  forall fs fs' r, m fs = (fs', Ok r) -> Q fs' r.

(** A result [true] comes with the output image, and the result is never
    ['pdf']. *)
Definition written (outputPath : string) (fs : FS) (r : ConvResult) : Prop :=
  (r = RTrue -> outputPath ∈ fs) /\ r <> RPdf.

Definition notFalse (fs : FS) (r : ConvResult) : Prop := r <> RFalse.

(** A result [false] comes after two faults of sharp: one while the page
    of text was drawn or re-encoded, one while the page that only names the
    file was drawn. *)
Definition drawnTwice (env : Env) (outputPath : string) (fs : FS)
  (r : ConvResult) : Prop :=
  r = RFalse ->
  ((exists page, sharp_error env (InSvg (TextSvg page)) Png <> None)
   \/ sharp_error env (InFile (Path.pngPath outputPath)) (Jpeg 95) <> None)
  /\ (sharp_error env InBlank Png <> None
      \/ exists fileType n,
           sharp_error env (InComposite (TitleSvg fileType n)) (Jpeg 95)
           <> None).

End Outcome.

(** ** Stored names: the [filename] callback of the upload storage *)

Module Storage.

(** What the class of the pattern lets through: [[a-zA-Z0-9.\-_]] and the
    Hangul syllables. *)
Definition kept (c : jschar) : bool :=
  is_alnum c || (c =? 46)%N || (c =? 45)%N || (c =? 95)%N || is_hangul c.

(** [originalname.replace(/[^a-zA-Z0-9.\-_가-힣]/g, '_')]. *)
Definition sanitizedName (originalname : jsstring) : jsstring :=
  map (fun c => if kept c then c else 95%N) originalname.

(** The name under which a file received at [timestamp] is stored. *)
Definition filename (timestamp : nat) (originalname : jsstring) : jsstring :=
  of_nat timestamp ++ lit "-" ++ sanitizedName originalname.

End Storage.

(** ** [POST /upload] and [getFileType] *)

Module Upload.

(** What multer hands over for a stored file. *)
Record File := {
  filename : string;
  originalname : string;
  path : string;
  size : N;
  mimetype : string
}.

(** The extension is read by [Path.extname_lower], which is
    [path.extname] for a name that is a single segment other than [..]. *)
Definition getFileType (mimetype filename : string) : string :=
  let ext := Path.extname_lower filename in
  if String.prefix "image/" mimetype then "image"
  else if String.eqb ext ".pdf" then "pdf"
  else if existsb (String.eqb ext) [".doc"; ".docx"; ".hwp"; ".hwpx"]
  then "document"
  else if existsb (String.eqb ext) [".xls"; ".xlsx"] then "spreadsheet"
  else if existsb (String.eqb ext) [".txt"; ".html"; ".htm"] then "text"
  else "file".

(** An entry of the answer: the fields that the client and [POST /convert]
    read later, and the path of the stored file. *)
Record Entry := { info : Assembler.FileInfo; entry_path : string }.

Definition fileInfo (file : File) : Entry :=
  {| info :=
       {| Assembler.filename := filename file;
          Assembler.originalname := originalname file;
          Assembler.size := size file;
          Assembler.mimetype := mimetype file;
          Assembler.type := getFileType (mimetype file) (originalname file) |};
     entry_path := path file |}.

Inductive Body :=
| Uploaded (files : list Entry) (message : jsstring)
| Failure (error : string).

Record Response := { status : nat; body : Body }.

(** The handler, [req.files] being absent or a list. Nothing in its [try]
    block throws. *)
Definition handler (files : option (list File)) : Response :=
  match files with
  | None | Some [] => {| status := 400; body := Failure "No files uploaded" |}
  | Some received =>
    {| status := 200;
       body := Uploaded (map fileInfo received)
                 (of_nat (length received)
                  ++ lit " files uploaded successfully") |}
  end.

End Upload.

(** ** The page script: tables, size preview, request and removal *)

Module Client.

Import Compression.

(** The own properties of [fileTypeIcons] and of [labels] in
    [getFileTypeLabel]. *)
Definition fileTypeIcons : list (string * jsstring) :=
  [ ("image", [55357; 56764; 65039]%N);
    ("pdf", [55357; 56516]%N);
    ("document", [55357; 56541]%N);
    ("spreadsheet", [55357; 56522]%N);
    ("text", [55357; 56515]%N);
    ("file", [55357; 56513]%N) ].

Definition labels : list (string * jsstring) :=
  [ ("image", utf8 "이미지");
    ("pdf", lit "PDF");
    ("document", utf8 "문서");
    ("spreadsheet", utf8 "스프레드시트");
    ("text", utf8 "텍스트");
    ("file", utf8 "파일") ].

(** The text of an input field: empty, a text that reads as a number, or
    any other text. Only the empty text is falsy. *)
Inductive FieldText :=
| Blank
| Numeric (value : Qc)
| Other.

(** A number of the script: a rational or [NaN]. *)
Inductive number :=
| Num (q : Qc)
| NaN.

Record Controls := {
  compressionType : string;
  targetSize : FieldText;
  sizeUnit : string;
  (** The slider always holds a number. *)
  compressionRatio : Qc
}.

(** [field.value * k]. *)
Definition times (field : FieldText) (k : Qc) : number :=
  match field with
  | Numeric v => Num (v * k)
  | Blank => Num 0
  | Other => NaN
  end.

(** [Math.min(a, b)] for a second argument that is a number. *)
Definition min (a : number) (b : Qc) : number :=
  match a with
  | Num x => Num (if gt x b then b else x)
  | NaN => NaN
  end.

Definition totalSize (uploadedFiles : list Upload.Entry) : N :=
  fold_left (fun sum file => (sum + Assembler.size (Upload.info file))%N)
    uploadedFiles 0%N.

(** [updateSizePreview]: [None] when the preview is hidden, else the
    original size and the estimate that are shown. *)
Definition updateSizePreview (uploadedFiles : list Upload.Entry)
  (c : Controls) : option (N * number) :=
  match uploadedFiles with
  | [] => None
  | _ =>
    let total := Q2Qc (Z.of_N (totalSize uploadedFiles) # 1) in
    let estimatedCompressedSize :=
      if String.eqb (compressionType c) "low" then Num (total * qc 9 10)
      else if String.eqb (compressionType c) "medium"
      then Num (total * qc 7 10)
      else if String.eqb (compressionType c) "high"
      then Num (total * qc 5 10)
      else if String.eqb (compressionType c) "custom" then
        match targetSize c with
        | Blank => Num (total * (compressionRatio c / qc 100 1))
        | field =>
          let targetBytes :=
            times field
              (if String.eqb (sizeUnit c) "MB" then qc 1048576 1
               else qc 1024 1) in
          min targetBytes total
        end
      else Num total in
    Some (totalSize uploadedFiles, estimatedCompressedSize)
  end.

(** The body that [convertToPDF] sends, [None] when there is nothing to
    convert. A target that is [NaN] is written as [null] in the JSON text,
    which the server reads like an absent target. *)
Definition requestData (uploadedFiles : list Upload.Entry) (c : Controls)
  : option Assembler.ConvertRequest :=
  match uploadedFiles with
  | [] => None
  | _ =>
    let custom := String.eqb (compressionType c) "custom" in
    Some
      {| Assembler.files := map Upload.info uploadedFiles;
         Assembler.compression := Some (compressionType c);
         Assembler.targetSizeKB :=
           if custom then
             match targetSize c with
             | Blank => None
             | field =>
               match times field
                       (if String.eqb (sizeUnit c) "MB" then qc 1024 1
                        else qc 1 1) with
               | Num q => Some q
               | NaN => None
               end
             end
           else None;
         Assembler.compressionRatio :=
           if custom then Some (compressionRatio c / qc 100 1)%Qc
           else None |}
  end.

(** The list of the page and the files that the server keeps. *)
Record World := { uploadedFiles : list Upload.Entry; stored : Render.FS }.

Record Browser := {
  (** [await fetch(`/delete/${filename}`, {method: 'DELETE'})]: what it
      does to the files of the server, and the answer, or the rejection. *)
  fetch_delete : string -> M Render.FS Deletion.Response;
  (** What [displayFiles(); updateSizePreview()] and the changes of style
      throw, if they do. *)
  redraw : list Upload.Entry -> result unit
}.

Definition onServer {A} (m : M Render.FS A) : M World A :=
  fun w =>
    let '(fs', r) := m (stored w) in
    ({| uploadedFiles := uploadedFiles w; stored := fs' |}, r).

(** [uploadedFiles.splice(index, 1)]. *)
Definition splice (index : nat) : M World unit :=
  modify (fun w =>
    {| uploadedFiles := delete index (uploadedFiles w);
       stored := stored w |}).

Definition display (b : Browser) : M World unit :=
  fun w => (w, redraw b (uploadedFiles w)).

(** [removeFile(index)], run without another handler in between. *)
Definition removeFile (b : Browser) (index : nat) : M World unit :=
  fun w =>
    let file := uploadedFiles w !! index in
    tryM
      (let! _ :=
         match file with
         | Some f =>
           onServer (fetch_delete b (Assembler.filename (Upload.info f)))
         | None =>
           throw {| message := "Cannot read properties of undefined" |}
         end in
       let! _ := splice index in
       display b)
      (fun _ =>
         let! _ := splice index in
         display b)
      w.

(** A browser that reaches the server and redraws without fault. *)
Definition online : Browser :=
  {| fetch_delete := Deletion.handler; redraw := fun _ => Ok tt |}.

End Client.

(** ** [POST /convert]: the handler around the loop *)

Module Convert.

Import Render Assembler.

Record Env := {
  assembler : Assembler.Env;
  (** What [PDFDocument.create()] and [fs.ensureDirSync(tempDir)] throw, if
      they do. *)
  create_error : option JsError;
  ensureDir_error : option JsError;
  (** [pdfDoc.save()]. *)
  save : list Page -> result buffer;
  (** What [fs.writeFile] throws for a path, if it does. *)
  writeFile_error : string -> option JsError;
  (** [Date.now()] when the document is saved. *)
  savedAt : nat
}.

Inductive Body :=
| Converted (filename downloadUrl : string)
    (originalSizeKB compressedSizeKB : N) (compressionRatio : option Z)
    (message : string)
| Failure (error : string).

Record Response := { status : nat; body : Body }.

Definition outputFilename (now : nat) : string :=
  String.append "converted-"
    (String.append (NilEmpty.string_of_uint (Nat.to_uint now)) ".pdf").

Definition outputPath (outputFilename : string) : string :=
  String.append "/tmp/output/" outputFilename.

(** [Math.round(bytes / 1024)]. *)
Definition roundKB (bytes : N) : N := ((bytes + 512) / 1024)%N.

(** [Math.round(x)]: the integer at or below [x + 1/2]. *)
Definition round (x : Q) : Z := Qfloor (x + (1 # 2)).

(** [Math.max(0, Math.round((1 - outputSizeKB / (totalOriginalSize / 1024))
    * 100))]. For an input of no bytes the quotient is infinite, and the
    result 0, or it is [NaN] (here [None]) when the output rounds to 0 KB as
    well. *)
Definition savings (outputSizeKB totalOriginalSize : N) : option Z :=
  if (totalOriginalSize =? 0)%N then
    if (outputSizeKB =? 0)%N then None else Some 0%Z
  else
    let quotient :=
      (inject_Z (Z.of_N outputSizeKB)
       / (inject_Z (Z.of_N totalOriginalSize) / inject_Z 1024))%Q in
    Some (Z.max 0 (round ((1 - quotient) * inject_Z 100)%Q)).

Definition fail {S} (error : option JsError) : M S unit :=
  match error with
  | None => ret tt
  | Some e => throw e
  end.

(** The loop over the files, from an empty document: the pages it makes. *)
Definition runLoop (env : Env) (req : ConvertRequest) : M FS (list Page) :=
  fun uploads =>
    let '(st, r) := assemble (assembler env) req uploads in
    (fs st, bind_result r (fun _ => Ok (doc st))).

Definition writeFile (env : Env) (p : string) : M FS unit :=
  fun fs : FS =>
    match writeFile_error env p with
    | None => ({[p]} ∪ fs, Ok tt)
    | Some e => (fs, Throw e)
    end.

(** The loop that removes the uploads of the batch. *)
Fixpoint cleanUploads (fileInfos : list FileInfo) : M FS unit :=
  match fileInfos with
  | [] => ret tt
  | fileInfo :: rest =>
    let filePath := Path.uploadPath (filename fileInfo) in
    let! found := existsSync filePath in
    let! _ := if found : bool then unlinkSync filePath else ret tt in
    cleanUploads rest
  end.

Definition inTemp (p : string) : bool := String.prefix "temp/" p.

(** [fs.removeSync(tempDir)]. *)
Definition removeTemp : M FS unit :=
  modify (fun fs : FS => filter (fun p => inTemp p = false) fs).

(** The answer of the [catch] block. *)
Definition failed (error : JsError) : Response :=
  {| status := 500;
     body :=
       Failure (String.append "Failed to convert PDF: " (message error)) |}.

(** The handler; an absent [files] is an empty list. *)
Definition handler (env : Env) (req : ConvertRequest) : M FS Response :=
  tryM
    (match files req with
     | [] =>
       ret {| status := 400;
              body := Failure "No files provided for conversion" |}
     | _ =>
       let! _ := fail (create_error env) in
       let! _ := fail (ensureDir_error env) in
       let totalOriginalSize := totalOriginalSize (files req) in
       let! pages := runLoop env req in
       let! pdfBytes := liftR (save env pages) in
       let outputFilename := outputFilename (savedAt env) in
       let! _ := writeFile env (outputPath outputFilename) in
       let outputSizeKB := roundKB (N.of_nat (length pdfBytes)) in
       let! _ := cleanUploads (files req) in
       let! _ := removeTemp in
       ret {| status := 200;
              body :=
                Converted outputFilename
                  (String.append "/output/" outputFilename)
                  (roundKB totalOriginalSize) outputSizeKB
                  (savings outputSizeKB totalOriginalSize)
                  "PDF converted successfully" |}
     end)
    (fun error => ret (failed error)).

(** The path of the converted document. *)
Definition savedPath (env : Env) : string :=
  outputPath (outputFilename (savedAt env)).

End Convert.

(** ** [showDownload]: what the page shows of the answer *)

Module Download.

(** What is written into the block of results: the two sizes in bytes that
    are handed to [formatFileSize], and the percentage. *)
Record Shown := {
  finalOriginalSize : N;
  finalCompressedSize : N;
  finalSavings : Z
}.

(** The block of results for a success answer, [None] when it stays
    hidden. A [compressionRatio] of [null] or 0 is shown as 0. *)
Definition showDownload (result : Convert.Body) : option Shown :=
  match result with
  | Convert.Converted _ _ originalSizeKB compressedSizeKB compressionRatio _ =>
    if negb (originalSizeKB =? 0)%N && negb (compressedSizeKB =? 0)%N then
      Some {| finalOriginalSize := (originalSizeKB * 1024)%N;
              finalCompressedSize := (compressedSizeKB * 1024)%N;
              finalSavings :=
                match compressionRatio with
                | Some savings => if (savings =? 0)%Z then 0%Z else savings
                | None => 0%Z
                end |}
    else None
  | Convert.Failure _ => None
  end.

End Download.

(** ** The serverless handler of [api/index.js] *)

Module Api.

(** A file that multer keeps in memory. *)
Record MemoryFile := {
  originalname : string;
  size : N;
  mimetype : string;
  buffer_ : buffer
}.

(** What [upload.array('files', 20)(req, res, callback)] does: it throws,
    or it calls back with an error or with [req.files] filled in or not. *)
Inductive Multer :=
| Threw (e : JsError)
| Rejected (err : JsError)
| Parsed (files : option (list MemoryFile)).

Record Env := {
  (** [fs.readFileSync(path.join(process.cwd(), name), 'utf8')]. *)
  readFileSync : string -> result jsstring;
  multer : Multer
}.

Record Request := {
  method : string;
  url : string;
  (** What reading the fields of [req.body] throws, if it does (it does
      when there is no body). *)
  body_error : option JsError
}.

Inductive Body :=
| Empty
| Sent (text : jsstring)
| SentText (text : string)
| Uploaded (files : list MemoryFile) (message : jsstring)
| ComingSoon
| Error (error : string).

Record Response := {
  status : nat;
  contentType : option string;
  body : Body
}.

(** The three headers that are set before anything else. *)
Definition corsHeaders : list (string * string) :=
  [ ("Access-Control-Allow-Origin", "*");
    ("Access-Control-Allow-Methods", "GET, POST, PUT, DELETE, OPTIONS");
    ("Access-Control-Allow-Headers", "Content-Type, Authorization") ].

Definition static (env : Env) (name type : string) (missing : Response)
  : Response :=
  match readFileSync env name with
  | Ok text => {| status := 200; contentType := Some type; body := Sent text |}
  | Throw _ => missing
  end.

Definition answer (status : nat) (body : Body) : Response :=
  {| status := status; contentType := None; body := body |}.

Definition handler (env : Env) (req : Request) : Response :=
  if String.eqb (method req) "OPTIONS" then answer 200 Empty
  else if String.eqb (url req) "/" && String.eqb (method req) "GET" then
    static env "index.html" "text/html"
      (answer 500 (Error "Failed to load homepage"))
  else if String.eqb (url req) "/style.css" && String.eqb (method req) "GET"
  then
    static env "style.css" "text/css" (answer 404 (SentText "CSS not found"))
  else if String.eqb (url req) "/script.js" && String.eqb (method req) "GET"
  then
    static env "script.js" "application/javascript"
      (answer 404 (SentText "JS not found"))
  else if String.eqb (url req) "/upload" && String.eqb (method req) "POST"
  then
    match multer env with
    | Threw e => answer 500 (Error (String.append "Upload failed: " (message e)))
    | Rejected err => answer 400 (Error (message err))
    | Parsed None | Parsed (Some []) => answer 400 (Error "No files uploaded")
    | Parsed (Some files) =>
      answer 200
        (Uploaded files
           (of_nat (length files) ++ lit " files uploaded successfully"))
    end
  else if String.eqb (url req) "/convert" && String.eqb (method req) "POST"
  then
    match body_error req with
    | None => answer 200 ComingSoon
    | Some e =>
      answer 500 (Error (String.append "Conversion failed: " (message e)))
    end
  else answer 404 (Error "Route not found").

(** The routes that the handler serves. *)
Definition routes : list (string * string) :=
  [ ("GET", "/"); ("GET", "/style.css"); ("GET", "/script.js");
    ("POST", "/upload"); ("POST", "/convert") ].

Definition served (req : Request) : bool :=
  String.eqb (method req) "OPTIONS"
  || existsb (fun r => String.eqb (method req) (fst r)
                       && String.eqb (url req) (snd r)) routes.

End Api.

(** ** The wording of the specification, where it is compared with the code *)

Module Spec.

Import Compression.

(** "if an explicit target size is given, ratio = min(1, targetSize /
    aggregateInputSizeBytes); otherwise ratio = explicitRatio directly". *)
Definition customRatio (targetSize : option Qc) (explicitRatio : Qc)
  (aggregateInputSize : Qc) : Qc :=
  match targetSize with
  | Some t =>
    let r := (t / aggregateInputSize)%Qc in
    if gt r 1%Qc then 1%Qc else r
  | None => explicitRatio
  end.

(** "runs of mixed ASCII/target-script characters (length >= 4, capped to
    the first 10 matches)", for the scan of the binary string. *)
Definition mixedRuns (buf : buffer) : list jsstring :=
  take 10 (match_runs Hwp.asciiClass 4 (Hwp.binaryText buf)).

(** "removing an already-removed file is not an error to the caller":
    the answer to a second deletion of the same identifier. *)
Definition secondDeletion (filename : string) (stored : gset string)
  : result Deletion.Response :=
  (Deletion.handler filename (Deletion.handler filename stored).1).2.

End Spec.

(** ** Inputs at which the code is run below *)

Module Inputs.

Import Compression Assembler.

(** One file of 1000 KB. *)
Definition oneFile : FileInfo :=
  {| filename := "1700000000000-notes.txt"; originalname := "notes.txt";
     size := 1024000; mimetype := "text/plain"; type := "text" |}.

(** The custom tier with the ratio slider at 50 % and no target size. *)
Definition ratioRequest : ConvertRequest :=
  {| files := [oneFile]; compression := Some "custom";
     targetSizeKB := None; compressionRatio := Some (qc 1 2) |}.

(** The custom tier with a target of 2000 KB for 1000 KB of input. *)
Definition largeTargetRequest : ConvertRequest :=
  {| files := [oneFile]; compression := Some "custom";
     targetSizeKB := Some (qc 2000 1); compressionRatio := Some (qc 1 2) |}.

(** A short word followed by a word of 71 characters, and a single word of
    200 characters. *)
Definition shortThenLong : jsstring := lit "a " ++ repeat 120%N 71.

Definition veryLong : jsstring := repeat 120%N 200.

(** Two texts that agree on their first 3000 characters. *)
Definition sharedPrefixA : jsstring := repeat 97%N 3000 ++ lit " first tail".

Definition sharedPrefixB : jsstring := repeat 97%N 3000 ++ lit " another".

(** A detector that finds nothing and decoders that give the empty text,
    and libraries that all throw. *)
Definition silentEncoding : Encoding.Env :=
  {| Encoding.jschardet_detect := fun _ => Ok None;
     Encoding.iconv_encodingExists := fun _ => Ok true;
     Encoding.iconv_decode := fun _ _ => Ok [];
     Encoding.toString_utf8 := fun buf => buf |}.

Definition failure : JsError := {| message := "boom" |}.

Definition throwingEncoding : Encoding.Env :=
  {| Encoding.jschardet_detect := fun _ => Throw failure;
     Encoding.iconv_encodingExists := fun _ => Throw failure;
     Encoding.iconv_decode := fun _ _ => Throw failure;
     Encoding.toString_utf8 := fun buf => buf |}.

(** A workbook of five sheets of thirty rows that opens at the first
    attempt. *)
Definition thirtyRows : jsstring := join Excel.nl (repeat (lit "a|b") 30).

Definition fiveSheets : Excel.Workbook :=
  {| Excel.SheetNames := [lit "S1"; lit "S2"; lit "S3"; lit "S4"; lit "S5"];
     Excel.Sheets := fun _ =>
       {| Excel.sheet_to_csv := Ok thirtyRows;
          Excel.ref := None;
          Excel.cell_v := fun _ _ => None |} |}.

Definition fiveSheetsEnv : Excel.Env :=
  {| Excel.readFile_cp949 := fun _ => Ok fiveSheets;
     Excel.readFile_plain := fun _ => Throw failure;
     Excel.readFileSync := fun _ => Throw failure;
     Excel.read_buffer := fun _ => Throw failure |}.

(** Decoders for a buffer of ASCII bytes, and buffers of that kind: four
    runs of four letters kept apart by zero bytes, and a sentence. *)
Definition asciiHwp : Hwp.Env :=
  {| Hwp.toString_utf8 := fun buf => Ok buf;
     Hwp.iconv_decode := fun buf _ => Ok buf;
     Hwp.basename := fun _ => lit "report.hwp" |}.

Definition fourLetterRuns : buffer :=
  lit "abcd" ++ [0%N] ++ lit "efgh" ++ [0%N] ++ lit "ijkl" ++ [0%N]
  ++ lit "mnop".

Definition sentence : buffer := lit "hello world, this is text".

(** Libraries that render without fault, a PDF reader that finds three
    pages, and one that throws. *)
Definition quietRender : Render.Env :=
  {| Render.encoding := silentEncoding;
     Render.excel := fiveSheetsEnv;
     Render.hwp := asciiHwp;
     Render.readFileSync := fun _ => Ok [];
     Render.mammoth_extractRawText := fun _ => Throw failure;
     Render.html_to_text := fun text => text;
     Render.sharp_error := fun _ _ => None |}.

Definition threePages : Assembler.Env :=
  {| Assembler.render := quietRender;
     Assembler.pdf_load := fun _ => Ok [1; 2; 3]%N;
     Assembler.pdf_copyPages := fun pages => Ok pages;
     Assembler.embedJpg_error := fun _ _ => None;
     Assembler.now := fun _ => 42 |}.

Definition brokenPdf : Assembler.Env :=
  {| Assembler.render := quietRender;
     Assembler.pdf_load := fun _ => Throw failure;
     Assembler.pdf_copyPages := fun pages => Ok pages;
     Assembler.embedJpg_error := fun _ _ => None;
     Assembler.now := fun _ => 42 |}.

(** A detector that answers with a Western label and a decoder that reads
    Korean bytes only as EUC-KR. *)
Definition westernGuess : Encoding.Env :=
  {| Encoding.jschardet_detect := fun _ => Ok (Some "windows-1252");
     Encoding.iconv_encodingExists := fun _ => Ok true;
     Encoding.iconv_decode := fun _ enc =>
       if String.eqb enc "euc-kr" then Ok [44032; 45208]%N
       else Ok (lit "abc");
     Encoding.toString_utf8 := fun buf => buf |}.

(** A text of 45 words of 69 characters. *)
Definition manyLines : jsstring :=
  concat (repeat (repeat 120%N 69 ++ lit " ") 45).

(** Two files as multer hands them over. *)
Definition received : list Upload.File :=
  [ {| Upload.filename := "42-scan.PDF"; Upload.originalname := "scan.PDF";
       Upload.path := "/tmp/uploads/42-scan.PDF"; Upload.size := 2048;
       Upload.mimetype := "application/pdf" |};
    {| Upload.filename := "42-data.bin"; Upload.originalname := "data.bin";
       Upload.path := "/tmp/uploads/42-data.bin"; Upload.size := 10;
       Upload.mimetype := "application/octet-stream" |} ].

(** A sharp that throws whatever it is asked to do. *)
Definition noSharp : Assembler.Env :=
  {| Assembler.render :=
       {| Render.encoding := silentEncoding;
          Render.excel := fiveSheetsEnv;
          Render.hwp := asciiHwp;
          Render.readFileSync := fun _ => Ok (lit "Hello world");
          Render.mammoth_extractRawText := fun _ => Throw failure;
          Render.html_to_text := fun text => text;
          Render.sharp_error := fun _ _ => Some failure |};
     Assembler.pdf_load := fun _ => Ok [1; 2; 3]%N;
     Assembler.pdf_copyPages := fun pages => Ok pages;
     Assembler.embedJpg_error := fun _ _ => None;
     Assembler.now := fun _ => 42 |}.

Definition photoFile : FileInfo :=
  {| filename := "1700000000003-photo.PNG"; originalname := "photo.PNG";
     size := 4096; mimetype := "image/png"; type := "image" |}.

Definition pdfFile : FileInfo :=
  {| filename := "1700000000001-scan.pdf"; originalname := "scan.pdf";
     size := 2048; mimetype := "application/pdf"; type := "pdf" |}.

Definition goneFile : FileInfo :=
  {| filename := "1700000000002-gone.txt"; originalname := "gone.txt";
     size := 10; mimetype := "text/plain"; type := "text" |}.

Definition pdfRequest : ConvertRequest :=
  {| files := [pdfFile]; compression := Some "low";
     targetSizeKB := None; compressionRatio := None |}.

Definition mixedRequest : ConvertRequest :=
  {| files := [goneFile; pdfFile; oneFile]; compression := None;
     targetSizeKB := None; compressionRatio := None |}.

Definition uploads : gset string :=
  {[ Path.uploadPath (filename pdfFile) ]}
  ∪ {[ Path.uploadPath (filename oneFile) ]}.

(** The entries of the page for the text file and for the scan, the
    custom tier with a target of 500 KB, and a page that cannot redraw. *)
Definition shownFile : Upload.Entry :=
  {| Upload.info := oneFile;
     Upload.entry_path := "/tmp/uploads/1700000000000-notes.txt" |}.

Definition shownScan : Upload.Entry :=
  {| Upload.info := pdfFile;
     Upload.entry_path := "/tmp/uploads/1700000000001-scan.pdf" |}.

Definition customTarget : Client.Controls :=
  {| Client.compressionType := "custom";
     Client.targetSize := Client.Numeric (qc 500 1);
     Client.sizeUnit := "KB";
     Client.compressionRatio := qc 70 1 |}.

Definition brokenPage : Client.Browser :=
  {| Client.fetch_delete := Deletion.handler;
     Client.redraw := fun _ => Throw failure |}.

(** A converter whose document is always saved in 1000 bytes a page, and
    one that cannot write the document. *)
Definition converter : Convert.Env :=
  {| Convert.assembler := threePages;
     Convert.create_error := None;
     Convert.ensureDir_error := None;
     Convert.save := fun pages => Ok (repeat 0%N (1000 * length pages));
     Convert.writeFile_error := fun _ => None;
     Convert.savedAt := 43 |}.

Definition fullDisk : Convert.Env :=
  {| Convert.assembler := threePages;
     Convert.create_error := None;
     Convert.ensureDir_error := None;
     Convert.save := fun pages => Ok (repeat 0%N (1000 * length pages));
     Convert.writeFile_error := fun _ => Some failure;
     Convert.savedAt := 43 |}.

(** A deployment without its static files and without uploads. *)
Definition emptySite : Api.Env :=
  {| Api.readFileSync := fun _ => Throw failure;
     Api.multer := Api.Parsed None |}.

End Inputs.

(** * Properties *)

(** ** CompressionPlanner *)

Section CompressionFacts.

Import Compression.

Local Open Scope Z_scope.

Lemma gt_true (x y : Qc) : gt x y = true <-> (y < x)%Qc.
Proof. unfold gt. apply bool_decide_eq_true. Qed.

Lemma gt_false (x y : Qc) : gt x y = false <-> (x <= y)%Qc.
Proof.
  unfold gt. rewrite bool_decide_eq_false. split.
  - apply Qcnot_lt_le.
  - apply Qcle_not_lt.
Qed.

Lemma truthy_Some (q : Qc) : q <> 0%Qc -> truthy (Some q) = true.
Proof.
  intros Hq. unfold truthy. rewrite bool_decide_eq_false_2; [reflexivity | exact Hq].
Qed.

Lemma quality_clamped (ty : string) (t : option Qc) (cur : Qc) :
  10 <= quality (calculateCompressionSettings ty t cur) <= 100.
Proof.
  unfold calculateCompressionSettings.
  destruct (if String.eqb ty "low" then _ else _) as [q r]. simpl. lia.
Qed.

Lemma qualityOfRatio_table (r : Qc) :
  ((qc 9 10 < r)%Qc -> qualityOfRatio r = 95)
  /\ ((qc 7 10 < r)%Qc -> (r <= qc 9 10)%Qc -> qualityOfRatio r = 85)
  /\ ((qc 5 10 < r)%Qc -> (r <= qc 7 10)%Qc -> qualityOfRatio r = 70)
  /\ ((qc 3 10 < r)%Qc -> (r <= qc 5 10)%Qc -> qualityOfRatio r = 55)
  /\ ((r <= qc 3 10)%Qc -> qualityOfRatio r = 40).
Proof.
  assert (H97 : (qc 7 10 <= qc 9 10)%Qc) by (vm_compute; discriminate).
  assert (H75 : (qc 5 10 <= qc 7 10)%Qc) by (vm_compute; discriminate).
  assert (H53 : (qc 3 10 <= qc 5 10)%Qc) by (vm_compute; discriminate).
  unfold qualityOfRatio.
  repeat split; intros;
    repeat match goal with
    | H : (?a < ?b)%Qc |- context [gt ?b ?a] =>
      rewrite (proj2 (gt_true b a) H)
    | H : (?b <= ?a)%Qc |- context [gt ?b ?a] =>
      rewrite (proj2 (gt_false b a) H)
    | |- context [gt ?b ?a] =>
      rewrite (proj2 (gt_false b a)) by (repeat (eassumption || (eapply Qcle_trans; [eassumption |])))
    end; reflexivity.
Qed.

End CompressionFacts.

Section PlannerClaims.

Import Assembler.

Local Open Scope Z_scope.

(** C2, at an input where the code departs from it: a custom request
    without a target size and with the explicit ratio 0.5 for 1000 KB of
    input is planned with ratio 1 and quality 80, where the claim has the
    ratio 0.5; the explicit ratio of a request never reaches the planner;
    and a target of 2000 KB for 1000 KB of input gives the ratio 2, where
    the claim has min(1, 2) = 1. *)
Theorem C2_custom_ratio_departs :
  Compression.compressionRatio (compressionSettings Inputs.ratioRequest) = 1%Qc
  /\ Compression.quality (compressionSettings Inputs.ratioRequest) = 80
  /\ Spec.customRatio None (Compression.qc 1 2) (Compression.qc 1000 1) = Compression.qc 1 2
  /\ (forall fs c t r1 r2,
        compressionSettings
          {| files := fs; compression := c; targetSizeKB := t;
             compressionRatio := r1 |}
        = compressionSettings
            {| files := fs; compression := c; targetSizeKB := t;
               compressionRatio := r2 |})
  /\ Compression.compressionRatio (compressionSettings Inputs.largeTargetRequest)
     = Compression.qc 2 1
  /\ Spec.customRatio (Some (Compression.qc 2000 1)) (Compression.qc 1 2) (Compression.qc 1000 1) = 1%Qc.
Proof.
  repeat split; try reflexivity; apply Qc_is_canon; reflexivity.
Qed.




End PlannerClaims.

(** ** TextLayoutEngine *)

Section LayoutFacts.

Import Layout.

Lemma unspaced_app (a b : jsstring) :
  unspaced (a ++ b) = unspaced a ++ unspaced b.
Proof. apply List.filter_app. Qed.

Lemma wrap_loop_keeps_characters (words lines : list jsstring)
  (currentLine : jsstring) :
  unspaced
    (concat (fst (wrap_loop words lines currentLine))
     ++ snd (wrap_loop words lines currentLine))
  = unspaced (concat lines ++ currentLine ++ concat words).
Proof.
  revert lines currentLine.
  induction words as [| word rest IH]; intros lines currentLine.
  - simpl. rewrite app_nil_r. reflexivity.
  - cbn [wrap_loop].
    destruct (length (currentLine ++ lit " " ++ word) <=? maxLineLength)%nat.
    + rewrite IH. cbn [concat].
      destruct currentLine as [| c cur']; cbn [nonempty].
      * reflexivity.
      * rewrite !unspaced_app.
        change (unspaced (lit " ")) with (@nil jschar).
        cbn [app]. rewrite <- !app_assoc. reflexivity.
    + destruct currentLine as [| c cur']; cbn [nonempty].
      * rewrite IH. rewrite concat_app. cbn [concat].
        rewrite app_nil_r, <- !app_assoc.
        rewrite (app_assoc (take maxLineLength word)).
        rewrite take_drop. reflexivity.
      * rewrite IH. rewrite concat_app. cbn [concat].
        rewrite app_nil_r, <- !app_assoc. reflexivity.
Qed.

(** Every character of the words reaches the lines; only the spaces that
    join words are added. *)
Lemma wrap_words_keeps_characters (words : list jsstring) :
  unspaced (concat (wrap_words words)) = unspaced (concat words).
Proof.
  unfold wrap_words.
  pose proof (wrap_loop_keeps_characters words [] []) as H.
  destruct (wrap_loop words [] []) as [lines currentLine].
  cbn [fst snd concat app] in H.
  destruct currentLine as [| c cur']; cbn [nonempty].
  - rewrite app_nil_r in H. exact H.
  - rewrite concat_app. cbn [concat]. rewrite app_nil_r. exact H.
Qed.

(** The page never shows more than 40 lines. *)
Lemma displayLines_at_most_40 (text fileType : jsstring) :
  (length (displayLines (layoutPage text fileType)) <= 40)%nat.
Proof. cbn [layoutPage displayLines]. rewrite length_take. lia. Qed.

Lemma existsb_rev {A} (f : A -> bool) (l : list A) :
  existsb f (rev l) = existsb f l.
Proof.
  induction l as [| x l IH]; [reflexivity |].
  cbn [rev existsb]. rewrite existsb_app, IH. cbn [existsb].
  rewrite orb_false_r. apply orb_comm.
Qed.

Lemma split_ws_from_pieces (s cur : jsstring) (in_ws : bool) (w : jsstring) :
  existsb is_space cur = false ->
  In w (split_ws_from s cur in_ws) -> existsb is_space w = false.
Proof.
  revert cur in_ws.
  induction s as [| c r IH]; intros cur in_ws Hcur Hin.
  - cbn in Hin. destruct Hin as [<- | []].
    rewrite existsb_rev. exact Hcur.
  - cbn [split_ws_from] in Hin.
    destruct (is_space c) eqn:Hc.
    + destruct in_ws.
      * apply (IH cur true); assumption.
      * destruct Hin as [<- | Hin].
        -- rewrite existsb_rev. exact Hcur.
        -- apply (IH [] true); [reflexivity | assumption].
    + apply (IH (c :: cur) false); [| assumption].
      cbn. rewrite Hc. exact Hcur.
Qed.

(** The words that the layout works on hold no white space. *)
Lemma split_ws_pieces (s w : jsstring) :
  In w (split_ws s) -> existsb is_space w = false.
Proof. apply split_ws_from_pieces. reflexivity. Qed.

Lemma existsb_drop (n : nat) (w : jsstring) :
  existsb is_space w = false -> existsb is_space (drop n w) = false.
Proof.
  intros H. rewrite <- (take_drop n w), existsb_app in H.
  apply orb_false_iff in H. apply H.
Qed.

Lemma wrap_loop_fits_or_token (words lines : list jsstring)
  (currentLine : jsstring) :
  Forall (fun w => existsb is_space w = false) words ->
  Forall (fun l => fitsOrToken l = true) lines ->
  fitsOrToken currentLine = true ->
  Forall (fun l => fitsOrToken l = true)
    (fst (wrap_loop words lines currentLine))
  /\ fitsOrToken (snd (wrap_loop words lines currentLine)) = true.
Proof.
  revert lines currentLine.
  induction words as [| word rest IH]; intros lines currentLine Hw Hl Hc.
  - split; assumption.
  - inversion Hw as [| ? ? Hword Hrest]; subst.
    cbn [wrap_loop].
    destruct (length (currentLine ++ lit " " ++ word) <=? maxLineLength)%nat
      eqn:Hfit.
    + apply IH; [assumption | assumption |].
      apply Nat.leb_le in Hfit. rewrite !length_app in Hfit.
      unfold fitsOrToken.
      destruct currentLine as [| c cur']; cbn [nonempty].
      * apply orb_true_iff. left. apply Nat.leb_le.
        unfold maxLineLength in *. lia.
      * apply orb_true_iff. left. apply Nat.leb_le.
        rewrite !length_app. exact Hfit.
    + destruct currentLine as [| c cur']; cbn [nonempty].
      * apply IH; [assumption | |].
        -- apply Forall_app. split; [assumption |].
           constructor; [| constructor].
           unfold fitsOrToken. apply orb_true_iff. left. apply Nat.leb_le.
           rewrite length_take. lia.
        -- unfold fitsOrToken. apply orb_true_iff. right.
           rewrite existsb_drop by assumption. reflexivity.
      * apply IH; [assumption | |].
        -- apply Forall_app. split; [assumption |].
           constructor; [assumption | constructor].
        -- unfold fitsOrToken. apply orb_true_iff. right.
           rewrite Hword. reflexivity.
Qed.

(** A line of the page either fits the budget of 70 characters or is one
    unbroken token (or the rest of one): lines that join words always fit. *)
Lemma textLines_fit_or_token (text : jsstring) :
  Forall (fun l => fitsOrToken l = true) (textLines text).
Proof.
  unfold textLines, wrap_words.
  set (words := split_ws _).
  assert (Hw : Forall (fun w => existsb is_space w = false) words).
  { apply List.Forall_forall. intros w Hin. apply (split_ws_pieces _ _ Hin). }
  destruct (wrap_loop_fits_or_token words [] [] Hw) as [Hl Hc];
    [constructor | reflexivity |].
  destruct (wrap_loop words [] []) as [lines currentLine].
  cbn [fst snd] in Hl, Hc.
  destruct currentLine as [| c cur']; cbn [nonempty]; [assumption |].
  apply Forall_app. split; [assumption |]. constructor; [assumption | constructor].
Qed.

(** C4, at inputs where the code departs from it: behind a short word, a
    token of 71 characters is put on a line whole and is not split, so the
    page has a line of 71 characters; and a token of 200 characters is split
    once only, the 130 characters left over making one line. *)
Theorem C4_long_token_kept_whole :
  textLines Inputs.shortThenLong = [lit "a"; repeat 120%N 71]
  /\ displayLines (layoutPage Inputs.shortThenLong (lit "txt"))
     = [lit "a"; repeat 120%N 71]
  /\ split_ws (cleanText Inputs.shortThenLong) = [lit "a"; repeat 120%N 71]
  /\ map (@length jschar) (textLines Inputs.veryLong) = [70; 130]%nat.
Proof. repeat split; vm_compute; reflexivity. Qed.



End LayoutFacts.

(** ** EncodingRecovery *)

Section EncodingFacts.

Import Encoding.

Variable env : Env.
Variable buf : buffer.

(** The loop over the candidates never throws, and finds nothing when no
    candidate is accepted. *)
Lemma tryEncodings_total (encs : list (option string)) :
  exists found,
    tryEncodings env buf encs = Ok found
    /\ (forallb (fun enc => negb (accepted env buf enc)) encs = true ->
        found = None).
Proof.
  induction encs as [| enc rest IH].
  - exists None. split; reflexivity.
  - destruct IH as (found & Hrest & Hnone).
    cbn [tryEncodings forallb]. unfold accepted.
    destruct (attempt env buf enc) as [[decoded |] | e]; cbn [try_catch negb andb].
    + exists (Some decoded). split; [reflexivity | discriminate].
    + exists found. split; assumption.
    + exists found. split; assumption.
Qed.

(** C5: for every buffer, the empty one included, and whatever the detector
    and the decoders do (they may throw), [detectAndConvertEncoding] returns
    a string; when no candidate encoding is accepted, the string is the
    plain UTF-8 decoding of the buffer. *)
Theorem C5_recovery_total :
  exists text,
    detectAndConvertEncoding env buf = Ok text
    /\ (forallb (fun enc => negb (accepted env buf enc)) (candidates env buf)
        = true ->
        text = toString_utf8 env buf).
Proof.
  unfold detectAndConvertEncoding, candidates.
  destruct (jschardet_detect env buf) as [detected | e]; cbn [bind_result try_catch].
  - destruct (tryEncodings_total (encodingsToTry (remap detected)))
      as (found & Hloop & Hnone).
    rewrite Hloop. cbn [bind_result].
    destruct found as [decoded |]; cbn [try_catch].
    + exists decoded. split; [reflexivity |].
      intros Hno. specialize (Hnone Hno). discriminate Hnone.
    + exists (toString_utf8 env buf). split; reflexivity.
  - exists (toString_utf8 env buf). split; reflexivity.
Qed.

End EncodingFacts.

(** The empty buffer, with decoders that give nothing reasonable, and any
    buffer with libraries that all throw. *)
Lemma C5_recovery_total_witness :
  Encoding.detectAndConvertEncoding Inputs.silentEncoding [] = Ok []
  /\ Encoding.detectAndConvertEncoding Inputs.throwingEncoding [104; 105]%N
     = Ok [104; 105]%N.
Proof.
  split.
  - destruct (C5_recovery_total Inputs.silentEncoding [])
      as (text & Hrun & Hfallback).
    rewrite Hrun. f_equal. apply Hfallback. vm_compute. reflexivity.
  - destruct (C5_recovery_total Inputs.throwingEncoding [104; 105]%N)
      as (text & Hrun & Hfallback).
    rewrite Hrun. f_equal. apply Hfallback. vm_compute. reflexivity.
Defined.

(** ** Loops over indices and loops that append *)

Section LoopFacts.

Context {A : Type}.

Lemma fold_left_append {B : Type} (h : B -> jsstring) (l : list B)
  (init : jsstring) (F : jsstring -> B -> jsstring) :
  (forall acc x, F acc x = acc ++ h x) ->
  fold_left F l init = init ++ concat (map h l).
Proof.
  intros HF. revert init.
  induction l as [| x l IH]; intros init; cbn [fold_left map concat].
  - rewrite app_nil_r. reflexivity.
  - rewrite IH, HF, <- app_assoc. reflexivity.
Qed.

Lemma map_nth_seq (d : A) (l : list A) (k : nat) :
  map (fun j => nth j l d) (seq 0 (Nat.min (length l) k)) = take k l.
Proof.
  revert k. induction l as [| x l IH]; intros k.
  - destruct k; reflexivity.
  - destruct k as [| k]; [reflexivity |].
    cbn [length Nat.min seq map nth take firstn].
    rewrite <- seq_shift, map_map. cbn [nth]. rewrite IH. reflexivity.
Qed.

(** A [for] loop over the first [k] indices of an array that appends
    something for each element appends it for the first [k] elements. *)
Lemma index_loop_take (h : A -> jsstring) (d : A) (l : list A) (k : nat)
  (init : jsstring) (F : jsstring -> nat -> jsstring) :
  (forall acc j, F acc j = acc ++ h (nth j l d)) ->
  fold_left F (seq 0 (Nat.min (length l) k)) init
  = init ++ concat (map h (take k l)).
Proof.
  intros HF.
  rewrite (fold_left_append (fun j => h (nth j l d)) _ init F HF).
  rewrite <- (map_nth_seq d l k), map_map. reflexivity.
Qed.

End LoopFacts.

Lemma nonempty_drop_spaces (s : jsstring) :
  nonempty (drop_spaces s) = existsb (fun c => negb (is_space c)) s.
Proof.
  induction s as [| c r IH]; [reflexivity |].
  cbn [drop_spaces existsb]. destruct (is_space c); [exact IH | reflexivity].
Qed.

Lemma existsb_drop_spaces (s : jsstring) :
  existsb (fun c => negb (is_space c)) (drop_spaces s)
  = existsb (fun c => negb (is_space c)) s.
Proof.
  induction s as [| c r IH]; [reflexivity |].
  cbn [drop_spaces]. destruct (is_space c) eqn:Hc.
  - cbn [existsb]. rewrite Hc. exact IH.
  - reflexivity.
Qed.

Lemma nonempty_rev (s : jsstring) : nonempty (rev s) = nonempty s.
Proof.
  destruct s as [| c r]; [reflexivity |].
  cbn [rev]. destruct (rev r); reflexivity.
Qed.

(** A text survives [trim] exactly when it holds a character that is not
    white space. *)
Lemma nonempty_trim (s : jsstring) :
  nonempty (trim s) = existsb (fun c => negb (is_space c)) s.
Proof.
  unfold trim.
  rewrite nonempty_rev, nonempty_drop_spaces, existsb_rev.
  apply existsb_drop_spaces.
Qed.

(** ** FormatDispatcher: spreadsheets *)

Section ExcelFacts.

Import Excel.

Lemma concat_map_kept {B : Type} (f : B -> jsstring) (p : jsstring -> bool)
  (g : jsstring -> jsstring) (l : list B) :
  concat (map (fun x => if p (f x) then g (f x) else []) l)
  = concat (map g (List.filter p (map f l))).
Proof.
  induction l as [| x l IH]; [reflexivity |].
  cbn [map concat List.filter]. rewrite IH.
  destruct (p (f x)); reflexivity.
Qed.

Lemma concat_map_flat_map {B : Type} (g : jsstring -> jsstring)
  (f : B -> list jsstring) (l : list B) :
  concat (map (fun x => concat (map g (f x))) l)
  = concat (map g (flat_map f l)).
Proof.
  induction l as [| x l IH]; [reflexivity |].
  cbn [map concat flat_map]. rewrite IH, map_app, concat_app. reflexivity.
Qed.

Lemma csvRowsText_rows (lines : list jsstring) :
  csvRowsText lines
  = concat (map (fun row => row ++ nl)
              (List.filter keptCsvLine (map trim (take 20 lines)))).
Proof.
  unfold csvRowsText.
  rewrite (index_loop_take
             (fun line =>
                if keptCsvLine (trim line) then trim line ++ nl else [])
             [] lines 20 []).
  - cbn [app].
    apply (concat_map_kept trim keptCsvLine (fun row => row ++ nl)).
  - intros acc j. unfold keptCsvLine.
    destruct (nonempty (trim (nth j lines [])) && _);
      [reflexivity | rewrite app_nil_r; reflexivity].
Qed.

Lemma manualText_rows (ws : Worksheet) :
  manualText ws
  = concat (map (fun row => row ++ nl) (manualRows ws))
    ++ (if rowsCutManual ws then MORE_ROWS else []).
Proof.
  unfold manualText, manualRows, rowsCutManual.
  set (range := match ref ws with Some r => r | None => DEFAULT_RANGE end).
  f_equal.
  rewrite (fold_left_append
             (fun R =>
                concat (map (fun row => row ++ nl)
                  (let '(rowData, hasData) := manualRow ws range R in
                   if hasData : bool then [join (lit " | ") rowData] else []))) _ []).
  - cbn [app].
    apply (concat_map_flat_map (fun row => row ++ nl)
             (fun R =>
                let '(rowData, hasData) := manualRow ws range R in
                if hasData : bool then [join (lit " | ") rowData] else [])).
  - intros acc R. destruct (manualRow ws range R) as [rowData [|]].
    + cbn [map concat]. rewrite app_nil_r. reflexivity.
    + cbn [map concat]. rewrite app_nil_r. reflexivity.
Qed.

(** What a sheet appends is its block: the header, its data rows, the
    notice when rows were cut, and an empty line. *)
Lemma sheetText_block (name : jsstring) (ws : Worksheet) :
  sheetText name ws = sheetBlock (sheetRows ws) (rowsCut ws) name.
Proof.
  unfold sheetText, sheetBlock, sheetRows, rowsCut.
  destruct (sheet_to_csv ws) as [csvContent | e].
  - unfold csvText. rewrite csvRowsText_rows, <- !app_assoc. reflexivity.
  - rewrite manualText_rows, <- !app_assoc. reflexivity.
Qed.

Lemma length_flat_map_le {B : Type} (f : B -> list jsstring) (l : list B) :
  (forall x, length (f x) <= 1) -> length (flat_map f l) <= length l.
Proof.
  intros Hf. induction l as [| x l IH]; [reflexivity |].
  cbn [flat_map]. rewrite length_app. cbn [length].
  specialize (Hf x). lia.
Qed.

(** A sheet contributes no more than 20 data rows. *)
Lemma sheetRows_at_most_20 (ws : Worksheet) : length (sheetRows ws) <= 20.
Proof.
  unfold sheetRows. destruct (sheet_to_csv ws) as [csvContent | e].
  - etransitivity; [apply List.filter_length_le |].
    rewrite length_map, length_take. lia.
  - unfold manualRows.
    etransitivity; [apply length_flat_map_le |].
    + intros R. destruct (manualRow ws _ R) as [rowData [|]]; cbn; lia.
    + rewrite length_seq. lia.
Qed.

Lemma sheets_loop (wb : Workbook) :
  fold_left
    (fun content i =>
       let sheetName := nth i (SheetNames wb) [] in
       content ++ sheetText sheetName (Sheets wb sheetName))
    (seq 0 (Nat.min (length (SheetNames wb)) 3)) []
  = concat (map (fun name =>
                   sheetBlock (sheetRows (Sheets wb name))
                     (rowsCut (Sheets wb name)) name)
              (take 3 (SheetNames wb))).
Proof.
  rewrite (index_loop_take
             (fun name => sheetText name (Sheets wb name)) [] _ 3 []).
  - cbn [app]. f_equal. apply map_ext. intros name. apply sheetText_block.
  - reflexivity.
Qed.

Lemma sheetBlock_not_blank (rows : list jsstring) (cut : bool)
  (name rest : jsstring) :
  nonempty (trim (sheetBlock rows cut name ++ rest)) = true.
Proof. rewrite nonempty_trim. reflexivity. Qed.

(** The text of a workbook that has a sheet. *)
Lemma excelContent_blocks (wb : Workbook) :
  SheetNames wb <> [] ->
  excelContent wb
  = concat (map (fun name =>
                   sheetBlock (sheetRows (Sheets wb name))
                     (rowsCut (Sheets wb name)) name)
              (take 3 (SheetNames wb)))
    ++ (if (3 <? length (SheetNames wb))%nat
        then MORE_SHEETS (length (SheetNames wb) - 3) else []).
Proof.
  intros Hsheets. unfold excelContent. rewrite sheets_loop.
  destruct (SheetNames wb) as [| name names] eqn:Hnames; [congruence |].
  cbn [take firstn map concat].
  set (blocks := concat _).
  assert (Hshown :
    forall rest,
      nonempty
        (trim
           ((sheetBlock (sheetRows (Sheets wb name))
               (rowsCut (Sheets wb name)) name ++ blocks) ++ rest)) = true).
  { intros rest. rewrite <- app_assoc. apply sheetBlock_not_blank. }
  destruct (3 <? length (name :: names))%nat.
  - rewrite Hshown. reflexivity.
  - rewrite <- (app_nil_r (_ ++ blocks)) at 1. rewrite Hshown.
    rewrite app_nil_r. reflexivity.
Qed.


End ExcelFacts.


(** ** FormatDispatcher: the legacy binary format *)

Section HwpFacts.

Import Hwp.

Lemma forallb_rev {A} (f : A -> bool) (l : list A) :
  forallb f (rev l) = forallb f l.
Proof.
  induction l as [| x l IH]; [reflexivity |].
  cbn [rev forallb]. rewrite forallb_app, IH. cbn [forallb].
  rewrite andb_true_r. apply andb_comm.
Qed.

Lemma emit_run_spec (cls : jschar -> bool) (n : nat) (cur m : jsstring) :
  forallb cls cur = true ->
  In m (emit_run n cur) -> n <= length m /\ forallb cls m = true.
Proof.
  intros Hcur. unfold emit_run.
  destruct (n <=? length cur)%nat eqn:Hn; cbn [andb]; [| intros []].
  destruct (nonempty cur); [| intros []].
  intros [<- | []]. apply Nat.leb_le in Hn.
  rewrite length_rev, forallb_rev. split; assumption.
Qed.

(** A match of [/[class]{n,}/g] is made of characters of the class and has
    at least [n] of them. *)
Lemma match_runs_from_spec (cls : jschar -> bool) (n : nat) (s cur m : jsstring) :
  forallb cls cur = true ->
  In m (match_runs_from cls n s cur) ->
  n <= length m /\ forallb cls m = true.
Proof.
  revert cur. induction s as [| c r IH]; intros cur Hcur Hin.
  - apply (emit_run_spec cls n cur m Hcur Hin).
  - cbn [match_runs_from] in Hin. destruct (cls c) eqn:Hc.
    + apply (IH (c :: cur)); [| assumption].
      cbn [forallb]. rewrite Hc. exact Hcur.
    + apply in_app_or in Hin. destruct Hin as [Hin | Hin].
      * apply (emit_run_spec cls n cur m Hcur Hin).
      * apply (IH []); [reflexivity | assumption].
Qed.

Lemma match_runs_spec (cls : jschar -> bool) (n : nat) (s m : jsstring) :
  In m (match_runs cls n s) -> n <= length m /\ forallb cls m = true.
Proof. apply match_runs_from_spec. reflexivity. Qed.

Lemma In_take {A} (k : nat) (l : list A) (x : A) : In x (take k l) -> In x l.
Proof.
  intros Hin. rewrite <- (take_drop k l). apply in_or_app. left. exact Hin.
Qed.

Lemma filter_none {A} (p : A -> bool) (l : list A) :
  (forall x, In x l -> p x = false) -> List.filter p l = [].
Proof.
  induction l as [| x l IH]; intros Hp; [reflexivity |].
  cbn [List.filter]. rewrite (Hp x (or_introl eq_refl)).
  apply IH. intros y Hy. apply Hp. right. exact Hy.
Qed.

(** A byte is no syllable: on the binary string the class of the first scan
    is the white space alone. *)
Lemma koreanClass_byte (c : jschar) :
  (c < 256)%N -> koreanClass c = is_space c.
Proof.
  intros Hc. unfold koreanClass.
  replace (44032 <=? c)%N with false; [reflexivity |].
  symmetry. apply N.leb_gt. lia.
Qed.

Lemma forallb_space_trim (m : jsstring) :
  forallb is_space m = true -> nonempty (trim m) = false.
Proof.
  intros Hm. rewrite nonempty_trim.
  induction m as [| c r IH]; [reflexivity |].
  cbn [forallb] in Hm. apply andb_true_iff in Hm. destruct Hm as [Hc Hr].
  cbn [existsb]. rewrite Hc. cbn [negb orb]. apply IH. exact Hr.
Qed.

Lemma match_runs_bytes (cls : jschar -> bool) (n : nat) (s m : jsstring) :
  Forall (fun c => (c < 256)%N) s ->
  In m (match_runs cls n s) -> Forall (fun c => (c < 256)%N) m.
Proof.
  unfold match_runs. intros Hs.
  assert (Hnil : Forall (fun c => (c < 256)%N) (@nil jschar)) by constructor.
  revert Hnil. generalize (@nil jschar) as cur. revert Hs.
  induction s as [| c r IH]; intros Hs cur Hcur Hin.
  - unfold match_runs_from, emit_run in Hin.
    destruct (_ && _); [| destruct Hin].
    destruct Hin as [<- | []]. apply Forall_rev. exact Hcur.
  - inversion Hs as [| ? ? Hc Hr]; subst.
    cbn [match_runs_from] in Hin. destruct (cls c).
    + apply (IH Hr (c :: cur)); [constructor; assumption | assumption].
    + apply in_app_or in Hin. destruct Hin as [Hin | Hin].
      * unfold emit_run in Hin. destruct (_ && _); [| destruct Hin].
        destruct Hin as [<- | []]. apply Forall_rev. exact Hcur.
      * apply (IH Hr []); [constructor | assumption].
Qed.

(** On a buffer of bytes the scan for the syllable range keeps nothing. *)
Lemma koreanKept_bytes (buf : buffer) :
  Forall (fun c => (c < 256)%N) buf -> koreanKept buf = [].
Proof.
  intros Hbuf. unfold koreanKept. apply filter_none.
  intros m Hin.
  destruct (match_runs_spec koreanClass 1 _ m Hin) as [_ Hcls].
  pose proof (match_runs_bytes koreanClass 1 _ m Hbuf Hin) as Hbytes.
  rewrite forallb_space_trim; [apply andb_false_r |].
  apply forallb_forall. intros c Hc.
  rewrite <- koreanClass_byte.
  - apply (proj1 (forallb_forall _ _) Hcls c Hc).
  - apply (proj1 (List.Forall_forall _ _) Hbytes c Hc).
Qed.

Lemma filter_andb {A} (p q : A -> bool) (l : list A) :
  List.filter (fun x => p x && q x) l = List.filter q (List.filter p l).
Proof.
  induction l as [| x l IH]; [reflexivity |].
  cbn [List.filter]. destruct (p x); cbn [andb List.filter]; rewrite IH; reflexivity.
Qed.

Lemma emit_run_longer (n : nat) (cur : jsstring) :
  List.filter (fun m => (n <? length m)%nat) (emit_run n cur)
  = emit_run (S n) cur.
Proof.
  unfold emit_run.
  destruct (nonempty cur);
    [rewrite !andb_true_r
    | rewrite !andb_false_r; reflexivity].
  destruct (Nat.leb_spec n (length cur)) as [Hn | Hn];
    destruct (Nat.leb_spec (S n) (length cur)) as [HSn | HSn];
    cbn [List.filter]; rewrite ?length_rev; try lia.
  - replace (n <? length cur)%nat with true; [reflexivity |].
    symmetry. apply Nat.ltb_lt. lia.
  - replace (n <? length cur)%nat with false; [reflexivity |].
    symmetry. apply Nat.ltb_ge. lia.
  - reflexivity.
Qed.

(** The matches of [{n,}] that are longer than [n] are the matches of
    [{n+1,}]. *)
Lemma match_runs_longer (cls : jschar -> bool) (n : nat) (s : jsstring) :
  List.filter (fun m => (n <? length m)%nat) (match_runs cls n s)
  = match_runs cls (S n) s.
Proof.
  unfold match_runs. generalize (@nil jschar) as cur.
  induction s as [| c r IH]; intros cur; cbn [match_runs_from].
  - apply emit_run_longer.
  - destruct (cls c); [apply IH |].
    rewrite List.filter_app, emit_run_longer, IH. reflexivity.
Qed.



End HwpFacts.


(** ** Files touched by the renderer *)

Section FrameFacts.

Import Render Frame.

Context {S : Type} (view : S -> FS) (P : string -> Prop).

Lemma confined_ret {A} (a : A) : confined view P (ret a).
Proof. intros st p _. reflexivity. Qed.

Lemma confined_throw {A} (e : JsError) : confined view P (@throw S A e).
Proof. intros st p _. reflexivity. Qed.

Lemma confined_liftR {A} (r : result A) : confined view P (liftR r).
Proof. intros st p _. reflexivity. Qed.

Lemma confined_gets {A} (f : S -> A) : confined view P (gets f).
Proof. intros st p _. reflexivity. Qed.

Lemma confined_bind {A B} (m : M S A) (k : A -> M S B) :
  confined view P m -> (forall a, confined view P (k a)) ->
  confined view P (bind m k).
Proof.
  intros Hm Hk st p Hp. unfold bind.
  specialize (Hm st p Hp).
  destruct (m st) as [st' [a | e]]; cbn [fst] in *.
  - rewrite (Hk a st' p Hp). exact Hm.
  - exact Hm.
Qed.

Lemma confined_tryM {A} (body : M S A) (handler : JsError -> M S A) :
  confined view P body -> (forall e, confined view P (handler e)) ->
  confined view P (tryM body handler).
Proof.
  intros Hm Hk st p Hp. unfold tryM.
  specialize (Hm st p Hp).
  destruct (body st) as [st' [a | e]]; cbn [fst] in *.
  - exact Hm.
  - rewrite (Hk e st' p Hp). exact Hm.
Qed.

Lemma confined_toBuffer (env : Env) (input : SharpInput)
  (format : SharpFormat) :
  confined view P (toBuffer env input format).
Proof.
  unfold toBuffer. destruct (sharp_error env input format).
  - apply confined_throw.
  - apply confined_ret.
Qed.

End FrameFacts.

Section FrameFiles.

Import Render Frame.

Variable P : string -> Prop.

Lemma confined_existsSync (q : string) : confined id P (existsSync q).
Proof. apply confined_gets. Qed.

Lemma confined_toFile (env : Env) (input : SharpInput) (format : SharpFormat)
  (out : string) :
  P out -> confined id P (toFile env input format out).
Proof.
  intros Hout fs p Hp. unfold toFile, id.
  destruct (sharp_error env input format); cbn [fst]; [reflexivity |].
  assert (Hne : p <> out) by (intros ->; exact (Hp Hout)).
  rewrite elem_of_union, elem_of_singleton. tauto.
Qed.

Lemma confined_unlinkSync (q : string) : P q -> confined id P (unlinkSync q).
Proof.
  intros Hq fs p Hp. unfold unlinkSync, id.
  destruct (bool_decide (q ∈ fs)); cbn [fst]; [| reflexivity].
  assert (Hne : p <> q) by (intros ->; exact (Hp Hq)).
  rewrite elem_of_difference, elem_of_singleton. tauto.
Qed.

End FrameFiles.

Create HintDb frame.

#[local] Hint Resolve confined_ret confined_throw confined_liftR
  confined_gets confined_toBuffer confined_existsSync : frame.

(** One step of the proof that a computation is confined. *)
Ltac confine_step :=
  first
    [ apply confined_bind; [| intros ?]
    | apply confined_tryM; [| intros ?]
    | apply confined_toFile; unfold Frame.scratch; tauto
    | apply confined_unlinkSync; unfold Frame.scratch; tauto
    | solve [auto with frame]
    | match goal with
      | |- Frame.confined _ _ (if ?b then _ else _) => destruct b
      end ].

Section RenderFrame.

Import Render Frame.

Variable env : Env.
Variable outputPath : string.

Lemma createSimpleTextImage_confined (text fileType : jsstring) :
  confined id (scratch outputPath)
    (createSimpleTextImage env text outputPath fileType).
Proof. unfold createSimpleTextImage. repeat confine_step. Qed.

Lemma createTextImage_confined (text fileType : jsstring) :
  confined id (scratch outputPath)
    (createTextImage env text outputPath fileType).
Proof.
  unfold createTextImage. repeat confine_step.
Qed.

Lemma createErrorImage_confined (errorMessage : jsstring) :
  confined id (scratch outputPath)
    (createErrorImage env outputPath errorMessage).
Proof. unfold createErrorImage. repeat confine_step. Qed.

Lemma textBranch_confined (extraction : result jsstring)
  (fileType : jsstring) (diagnostic : JsError -> jsstring) :
  confined id (scratch outputPath)
    (textBranch env extraction outputPath fileType diagnostic).
Proof.
  unfold textBranch. repeat confine_step.
Qed.

(** [convertToImage] writes and removes nothing but its output image and
    the intermediate image. *)
Lemma convertToImage_confined (filePath fileType : string) :
  confined id (scratch outputPath)
    (convertToImage env filePath outputPath fileType).
Proof.
  unfold convertToImage.
  repeat first
    [ apply textBranch_confined
    | apply createTextImage_confined
    | apply createErrorImage_confined
    | confine_step ].
Qed.

End RenderFrame.

(** ** PdfAssembler *)

Section AssemblerFacts.

Import Render Frame Assembler Contribution.

Variable env : Env.
Variable quality : Z.

Lemma upload_not_scratch (name : string) (n : nat) :
  ~ scratch (Path.tempImagePath n) (Path.uploadPath name).
Proof.
  unfold scratch, Path.uploadPath, Path.tempImagePath, Path.pngPath.
  intros [H | H]; cbn in H; discriminate H.
Qed.

Lemma addPages_doc (copied : list PdfPage) (st : LoopState) :
  addPages copied st
  = ({| doc := doc st ++ map CopiedPage copied; fs := fs st |}, Ok tt).
Proof.
  revert st. induction copied as [| page rest IH]; intros st.
  - destruct st. cbn. rewrite app_nil_r. reflexivity.
  - cbn [addPages]. unfold bind, addPage, modify. rewrite IH.
    cbn [doc fs map]. rewrite <- app_assoc. reflexivity.
Qed.

(** What one turn of the loop does to the document: it never throws, it
    only appends, and it leaves the uploaded files as they are. *)
Lemma processFile_shape (fileInfo : FileInfo) (st : LoopState) :
  exists pages fs',
    processFile env quality fileInfo st
    = ({| doc := doc st ++ pages; fs := fs' |}, Ok tt)
    /\ length pages <= maxPages env st fileInfo
    /\ (isPdf fileInfo = true -> missing st fileInfo = false ->
        forall copied, pdfOutcome env fileInfo = Ok copied ->
        pages = map CopiedPage copied)
    /\ (forall name, Path.uploadPath name ∈ fs' <-> Path.uploadPath name ∈ fs st).
Proof.
  destruct st as [d fs0].
  unfold processFile, maxPages, missing, bind, onFiles, existsSync, gets.
  cbn [doc fs].
  destruct (bool_decide (Path.uploadPath (filename fileInfo) ∈ fs0)) eqn:Hfound;
    cbn [negb].
  2:{ exists [], fs0. unfold ret. rewrite app_nil_r.
      split; [reflexivity |]. split; [reflexivity |].
      split; [discriminate | reflexivity]. }
  unfold tryM, tryBlock, isPdf, pdfOutcome.
  destruct (String.eqb (Path.extname_lower (filename fileInfo)) ".pdf")
    eqn:Hext.
  - (* a PDF: the pages are copied, or the banner is added *)
    unfold bind, liftR.
    destruct (readFileSync (render env) _) as [bytes | e]; cbn [bind_result].
    2:{ exists [errorPage fileInfo e], fs0.
        split; [reflexivity |]. split; [reflexivity |].
        split; [discriminate | reflexivity]. }
    destruct (pdf_load env bytes) as [pdf | e]; cbn [bind_result].
    2:{ exists [errorPage fileInfo e], fs0.
        split; [reflexivity |]. split; [reflexivity |].
        split; [discriminate | reflexivity]. }
    destruct (pdf_copyPages env pdf) as [copied | e].
    2:{ exists [errorPage fileInfo e], fs0.
        split; [reflexivity |]. split; [reflexivity |].
        split; [discriminate | reflexivity]. }
    rewrite addPages_doc. cbn [doc fs].
    exists (map CopiedPage copied), fs0.
    split; [reflexivity |].
    split; [rewrite length_map; reflexivity |].
    split; [| reflexivity].
    intros _ _ copied' Heq. inversion Heq. reflexivity.
  - (* another file: at most one page *)
    set (temp := Path.tempImagePath (now env fileInfo)).
    pose proof (convertToImage_confined (render env) temp
                  (Path.uploadPath (filename fileInfo)) (type fileInfo) fs0)
      as Hconf.
    unfold bind at 1. unfold onFiles at 1. cbn [fs doc].
    destruct (convertToImage (render env) _ temp _ fs0) as [fs1 [cr | e]];
      cbn [fst id] in Hconf.
    2:{ exists [errorPage fileInfo e], fs1.
        split; [reflexivity |]. split; [reflexivity |].
        split; [discriminate |].
        intros name. apply Hconf. apply upload_not_scratch. }
    assert (Hup : forall name,
              Path.uploadPath name ∈ fs1 <-> Path.uploadPath name ∈ fs0).
    { intros name. apply Hconf. apply upload_not_scratch. }
    unfold bind, onFiles, existsSync, gets, toBuffer, liftR, addPage, modify,
      unlinkSync, ret, throw.
    cbn [doc fs].
    destruct (bool_decide (temp ∈ fs1)) eqn:Htemp.
    2:{ exists [], fs1. rewrite app_nil_r.
        split; [destruct cr; reflexivity |]. split; [cbn; lia |].
        split; [discriminate | exact Hup]. }
    destruct cr.
    2,3: exists [], fs1; rewrite app_nil_r;
         (split; [reflexivity |]); (split; [cbn; lia |]);
         (split; [discriminate | exact Hup]).
    destruct (sharp_error (render env) (InFile temp) (Jpeg quality)) as [e |].
    { exists [errorPage fileInfo e], fs1.
      split; [reflexivity |]. split; [reflexivity |].
      split; [discriminate | exact Hup]. }
    destruct (embedJpg_error env temp quality) as [e |].
    { exists [errorPage fileInfo e], fs1.
      split; [reflexivity |]. split; [reflexivity |].
      split; [discriminate | exact Hup]. }
    cbn [doc fs]. rewrite Htemp.
    exists [ImagePage temp quality], (fs1 ∖ {[temp]}).
    split; [reflexivity |]. split; [reflexivity |].
    split; [discriminate |].
    intros name. rewrite elem_of_difference, elem_of_singleton, Hup.
    split; [tauto |]. intros Hin. split; [exact Hin |].
    intros Heq. apply (upload_not_scratch name (now env fileInfo)).
    left. exact Heq.
Qed.

Lemma maxPages_uploads (st st' : LoopState) (fileInfo : FileInfo) :
  (forall name,
     Path.uploadPath name ∈ fs st' <-> Path.uploadPath name ∈ fs st) ->
  maxPages env st' fileInfo = maxPages env st fileInfo.
Proof.
  intros Hup. unfold maxPages, missing.
  rewrite (bool_decide_ext _ _ (Hup (filename fileInfo))). reflexivity.
Qed.

Lemma sumPages_uploads (st st' : LoopState) (fileInfos : list FileInfo) :
  (forall name,
     Path.uploadPath name ∈ fs st' <-> Path.uploadPath name ∈ fs st) ->
  sumPages env st' fileInfos = sumPages env st fileInfos.
Proof.
  intros Hup. induction fileInfos as [| fileInfo rest IH]; [reflexivity |].
  cbn [sumPages fold_right]. fold (sumPages env st' rest).
  fold (sumPages env st rest).
  rewrite IH, (maxPages_uploads st st' fileInfo Hup). reflexivity.
Qed.

(** The loop never throws, only appends, and appends no more than the
    files allow. *)
Lemma convertLoop_shape (fileInfos : list FileInfo) (st : LoopState) :
  exists pages fs',
    convertLoop env quality fileInfos st
    = ({| doc := doc st ++ pages; fs := fs' |}, Ok tt)
    /\ length pages <= sumPages env st fileInfos
    /\ (forall name, Path.uploadPath name ∈ fs' <-> Path.uploadPath name ∈ fs st).
Proof.
  revert st. induction fileInfos as [| fileInfo rest IH]; intros st.
  - exists [], (fs st). destruct st. cbn. rewrite app_nil_r.
    split; [reflexivity |]. split; [lia | reflexivity].
  - destruct (processFile_shape fileInfo st)
      as (pages1 & fs1 & Hrun1 & Hlen1 & _ & Hup1).
    destruct (IH {| doc := doc st ++ pages1; fs := fs1 |})
      as (pages2 & fs2 & Hrun2 & Hlen2 & Hup2).
    cbn [doc fs] in Hrun2, Hup2.
    exists (pages1 ++ pages2), fs2.
    split; [| split].
    + cbn [convertLoop]. unfold bind. rewrite Hrun1, Hrun2.
      rewrite app_assoc. reflexivity.
    + rewrite (sumPages_uploads st _ rest) in Hlen2 by exact Hup1.
      rewrite length_app. cbn [sumPages fold_right].
      fold (sumPages env st rest). lia.
    + intros name. rewrite Hup2. apply Hup1.
Qed.

(** Without a PDF among them, the files allow one page for each file that
    is not missing. *)
Lemma sumPages_without_pdf (st : LoopState) (fileInfos : list FileInfo) :
  forallb (fun fileInfo => negb (isPdf fileInfo)) fileInfos = true ->
  sumPages env st fileInfos = length fileInfos - countMissing st fileInfos.
Proof.
  unfold countMissing.
  induction fileInfos as [| fileInfo rest IH]; intros Hnone; [reflexivity |].
  cbn [forallb] in Hnone. apply andb_true_iff in Hnone.
  destruct Hnone as [Hfile Hrest]. apply negb_true_iff in Hfile.
  cbn [sumPages fold_right List.filter length].
  fold (sumPages env st rest). rewrite (IH Hrest).
  pose proof (List.filter_length_le (missing st) rest) as Hle.
  unfold maxPages. rewrite Hfile.
  destruct (missing st fileInfo); cbn [length]; lia.
Qed.

End AssemblerFacts.

Section AssemblerClaims.

Import Render Frame Assembler Contribution.







End AssemblerClaims.

(** ** Deletion *)

Section DeletionFacts.

Import Render Deletion.



End DeletionFacts.


(** * Further properties of the code *)

(** ** EncodingRecovery: the order of the candidates *)

Section EncodingOrder.

Import Encoding.

Variable env : Env.
Variable buf : buffer.

Lemma tryEncodings_first (pre post : list (option string))
  (enc : option string) (decoded : jsstring) :
  forallb (fun e => negb (accepted env buf e)) pre = true ->
  attempt env buf enc = Ok (Some decoded) ->
  tryEncodings env buf (pre ++ enc :: post) = Ok (Some decoded).
Proof.
  intros Hpre Henc. induction pre as [| e pre IH].
  - cbn [app tryEncodings]. rewrite Henc. reflexivity.
  - cbn [forallb] in Hpre. apply andb_true_iff in Hpre.
    destruct Hpre as [He Hpre]. unfold accepted in He.
    cbn [app tryEncodings].
    destruct (attempt env buf e) as [[d |] | err]; cbn [try_catch];
      [discriminate He | apply IH; exact Hpre | apply IH; exact Hpre].
Qed.

Lemma attempt_reasonable (enc : option string) (decoded : jsstring) :
  attempt env buf enc = Ok (Some decoded) -> looksReasonable decoded = true.
Proof.
  unfold attempt. destruct enc as [e |]; [| discriminate].
  destruct (String.eqb e ""); [discriminate |].
  destruct (iconv_encodingExists env e) as [[|] | err]; cbn [bind_result];
    try discriminate.
  destruct (iconv_decode env buf e) as [d | err]; cbn [bind_result];
    [| discriminate].
  destruct (looksReasonable d) eqn:Hd; [| discriminate].
  intros H. inversion H. subst. exact Hd.
Qed.

(** X1: the candidates are tried in the order guess (with the two Western
    labels replaced by euc-kr), utf8, euc-kr, cp949, iso-2022-kr, and the
    first one that is accepted decides: when every candidate before one is
    rejected (or throws) and that one is accepted, its decoding is the
    result, and it is not empty and holds a syllable, a letter or a
    digit. *)
Theorem X1_first_accepted_candidate_wins (detected : option string)
  (pre post : list (option string)) (enc : option string)
  (decoded : jsstring) :
  jschardet_detect env buf = Ok detected ->
  encodingsToTry (remap detected) = pre ++ enc :: post ->
  forallb (fun e => negb (accepted env buf e)) pre = true ->
  attempt env buf enc = Ok (Some decoded) ->
  detectAndConvertEncoding env buf = Ok decoded
  /\ looksReasonable decoded = true.
Proof.
  intros Hdetect Hsplit Hpre Henc.
  split; [| apply (attempt_reasonable enc decoded Henc)].
  unfold detectAndConvertEncoding. rewrite Hdetect. cbn [bind_result].
  rewrite Hsplit, (tryEncodings_first pre post enc decoded Hpre Henc).
  reflexivity.
Qed.

End EncodingOrder.

(** A guess of windows-1252 is read as euc-kr first, before utf8. *)
Lemma X1_first_accepted_candidate_wins_witness :
  Encoding.detectAndConvertEncoding Inputs.westernGuess [176; 161]%N
  = Ok [44032; 45208]%N.
Proof.
  apply (X1_first_accepted_candidate_wins Inputs.westernGuess [176; 161]%N
           (Some "windows-1252") []
           [Some "utf8"; Some "euc-kr"; Some "cp949"; Some "iso-2022-kr"]
           (Some "euc-kr") [44032; 45208]%N).
  - reflexivity.
  - reflexivity.
  - reflexivity.
  - reflexivity.
Defined.

(** ** TextLayoutEngine: what reaches the page *)

Section LayoutContent.

Import Layout Content.

Lemma In_replace_char (c : jschar) (by_ s : jsstring) (x : jschar) :
  In x (replace_char c by_ s) -> In x by_ \/ (In x s /\ x <> c).
Proof.
  unfold replace_char. intros Hin. apply in_flat_map in Hin.
  destruct Hin as (y & Hy & Hx).
  destruct (N.eqb_spec y c) as [-> | Hne].
  - left. exact Hx.
  - right. destruct Hx as [<- | []]. split; assumption.
Qed.

Lemma In_remove_class (cls : jschar -> bool) (s : jsstring) (x : jschar) :
  In x (remove_class cls s) -> In x s /\ cls x = false.
Proof.
  unfold remove_class. intros Hin. apply List.filter_In in Hin.
  destruct Hin as [Hin Hcls]. apply negb_true_iff in Hcls. split; assumption.
Qed.

Lemma In_take_list {A} (k : nat) (l : list A) (x : A) :
  In x (take k l) -> In x l.
Proof.
  intros Hin. rewrite <- (take_drop k l). apply in_or_app. left. exact Hin.
Qed.

(** A character of the cleaned text is neither a markup character nor a
    control character. *)
Lemma cleanText_characters (text : jsstring) (c : jschar) :
  In c (cleanText text) -> is_markup c = false /\ is_control c = false.
Proof.
  unfold cleanText, escape_markup. intros Hin.
  apply In_replace_char in Hin. destruct Hin as [Hin | [Hin H39]].
  { cbn in Hin. intuition (subst; split; reflexivity). }
  apply In_replace_char in Hin. destruct Hin as [Hin | [Hin H34]].
  { cbn in Hin. intuition (subst; split; reflexivity). }
  apply In_replace_char in Hin. destruct Hin as [Hin | [Hin H62]].
  { cbn in Hin. intuition (subst; split; reflexivity). }
  apply In_replace_char in Hin. destruct Hin as [Hin | [Hin H60]].
  { cbn in Hin. intuition (subst; split; reflexivity). }
  apply In_replace_char in Hin. destruct Hin as [Hin | [Hin H38]].
  { cbn in Hin. intuition (subst; split; reflexivity). }
  apply In_remove_class in Hin. destruct Hin as [_ Hctl].
  split; [| exact Hctl]. unfold is_markup.
  apply N.eqb_neq in H39, H34, H62, H60.
  rewrite H39, H34, H62, H60. reflexivity.
Qed.

Lemma In_split_ws_from (s cur : jsstring) (in_ws : bool) (w : jsstring)
  (c : jschar) :
  In w (split_ws_from s cur in_ws) -> In c w -> In c cur \/ In c s.
Proof.
  revert cur in_ws. induction s as [| x r IH]; intros cur in_ws Hw Hc.
  - destruct Hw as [<- | []]. left. apply in_rev. exact Hc.
  - cbn [split_ws_from] in Hw. destruct (is_space x).
    + destruct in_ws.
      * destruct (IH cur true Hw Hc); [left | right; right]; assumption.
      * destruct Hw as [<- | Hw].
        -- left. apply in_rev. exact Hc.
        -- destruct (IH [] true Hw Hc) as [[] | Hr]. right. right. exact Hr.
    + destruct (IH (x :: cur) false Hw Hc) as [[<- | Hcur] | Hr].
      * right. left. reflexivity.
      * left. exact Hcur.
      * right. right. exact Hr.
Qed.

Lemma In_space (c : jschar) : In c (lit " ") -> c = 32%N.
Proof. intros [<- | []]. reflexivity. Qed.

Lemma wrap_loop_characters (words lines : list jsstring)
  (currentLine : jsstring) (c : jschar) :
  In c (concat (fst (wrap_loop words lines currentLine))
        ++ snd (wrap_loop words lines currentLine)) ->
  c = 32%N \/ In c (concat lines ++ currentLine ++ concat words).
Proof.
  revert lines currentLine.
  induction words as [| word rest IH]; intros lines currentLine Hin.
  - right. cbn in *. rewrite app_nil_r. exact Hin.
  - cbn [wrap_loop] in Hin. cbn [concat].
    destruct (length (currentLine ++ lit " " ++ word) <=? maxLineLength)%nat.
    + apply IH in Hin. destruct Hin as [-> | Hin]; [left; reflexivity |].
      destruct currentLine as [| x cur']; cbn [nonempty] in Hin.
      * right. exact Hin.
      * rewrite !in_app_iff in Hin. rewrite !in_app_iff.
        destruct Hin as [H | [[H | [H | H]] | H]]; auto.
        left. apply In_space. exact H.
    + destruct currentLine as [| x cur']; cbn [nonempty] in Hin;
        apply IH in Hin;
        (destruct Hin as [-> | Hin]; [left; reflexivity |]);
        right; rewrite concat_app in Hin; cbn [concat] in Hin;
        rewrite !in_app_iff in Hin; rewrite !in_app_iff.
      * destruct Hin as [[H | [H | []]] | [H | H]]; auto.
        -- right. right. left. apply (In_take_list _ _ _ H).
        -- right. right. left. rewrite <- (take_drop maxLineLength word).
           apply in_or_app. right. exact H.
      * destruct Hin as [[H | [H | []]] | [H | H]]; auto.
Qed.

Lemma In_concat_wrap_words (words : list jsstring) (c : jschar) :
  In c (concat (wrap_words words)) -> c = 32%N \/ In c (concat words).
Proof.
  unfold wrap_words. intros Hin.
  pose proof (wrap_loop_characters words [] [] c) as H.
  destruct (wrap_loop words [] []) as [lines currentLine].
  cbn [fst snd concat app] in H. apply H.
  destruct currentLine as [| x cur']; cbn [nonempty] in Hin.
  - rewrite app_nil_r. exact Hin.
  - rewrite concat_app in Hin. cbn [concat] in Hin.
    rewrite app_nil_r in Hin. exact Hin.
Qed.


End LayoutContent.


Section LayoutKeeps.

Import Layout Content.

Lemma solid_app (a b : jsstring) : solid (a ++ b) = solid a ++ solid b.
Proof. apply List.filter_app. Qed.

Lemma solid_unspaced (s : jsstring) : solid (unspaced s) = solid s.
Proof.
  induction s as [| c r IH]; [reflexivity |].
  cbn [unspaced List.filter]. destruct (N.eqb_spec c 32) as [-> | Hne].
  - cbn [negb]. exact IH.
  - cbn [negb solid List.filter]. fold (unspaced r). fold (solid (unspaced r)).
    fold (solid r). rewrite IH. reflexivity.
Qed.

Lemma solid_rev (s : jsstring) : solid (rev s) = rev (solid s).
Proof.
  induction s as [| c r IH]; [reflexivity |].
  cbn [rev]. rewrite solid_app, IH. cbn [solid List.filter].
  destruct (is_space c); cbn [negb rev]; [rewrite app_nil_r |]; reflexivity.
Qed.

Lemma solid_split_ws_from (s cur : jsstring) (in_ws : bool) :
  solid (concat (split_ws_from s cur in_ws)) = solid (rev cur) ++ solid s.
Proof.
  revert cur in_ws. induction s as [| c r IH]; intros cur in_ws.
  - cbn. rewrite !app_nil_r. reflexivity.
  - cbn [split_ws_from]. destruct (is_space c) eqn:Hc.
    + assert (Hskip : solid (c :: r) = solid r).
      { cbn [solid List.filter]. rewrite Hc. reflexivity. }
      rewrite Hskip. destruct in_ws.
      * apply IH.
      * cbn [concat]. rewrite solid_app, IH. reflexivity.
    + rewrite IH. cbn [rev]. rewrite solid_app, <- app_assoc. f_equal.
      cbn [solid List.filter]. rewrite Hc. reflexivity.
Qed.

(** Breaking a text at its white space loses nothing but white space. *)
Lemma solid_split_ws (s : jsstring) : solid (concat (split_ws s)) = solid s.
Proof. apply solid_split_ws_from. Qed.

(** X3: up to the cut at 40 lines, the wrapping loses and reorders nothing:
    the characters of all lines, white space left aside, are the characters
    of the cleaned text, white space left aside, in the same order. *)
Theorem X3_lines_keep_the_cleaned_text (text : jsstring) :
  solid (concat (textLines text)) = solid (cleanText (effectiveText text)).
Proof.
  unfold textLines.
  rewrite <- solid_unspaced, wrap_words_keeps_characters, solid_unspaced.
  apply solid_split_ws.
Qed.

Lemma wrap_loop_no_empty_line (words lines : list jsstring)
  (currentLine : jsstring) :
  Forall (fun l => l <> []) lines ->
  Forall (fun l => l <> []) (fst (wrap_loop words lines currentLine)).
Proof.
  revert lines currentLine.
  induction words as [| word rest IH]; intros lines currentLine Hl;
    [exact Hl |].
  cbn [wrap_loop].
  destruct (length (currentLine ++ lit " " ++ word) <=? maxLineLength)%nat
    eqn:Hfit; [apply IH; exact Hl |].
  destruct currentLine as [| c cur']; cbn [nonempty]; apply IH;
    apply Forall_app; (split; [exact Hl |]); constructor; try constructor.
  - apply Nat.leb_gt in Hfit. cbn [app length] in Hfit.
    unfold maxLineLength in *. destruct word; [cbn in Hfit; lia | discriminate].
  - discriminate.
Qed.

(** X4: no line of the layout is empty; the lines displayed are the first
    lines of the layout; and the marker for left-out content is drawn
    exactly when lines were left out, in which case 40 lines are
    displayed. *)
Theorem X4_marker_exactly_when_cut (text fileType : jsstring) :
  let page := layoutPage text fileType in
  Forall (fun l => l <> []) (textLines text)
  /\ displayLines page = take 40 (textLines text)
  /\ (moreLinesText page = [] <-> displayLines page = textLines text)
  /\ (moreLinesText page <> [] -> length (displayLines page) = 40).
Proof.
  cbv zeta. cbn [layoutPage displayLines moreLinesText].
  split; [| split; [reflexivity | split]].
  - unfold textLines, wrap_words.
    pose proof (wrap_loop_no_empty_line
                  (split_ws (cleanText (effectiveText text))) [] []
                  (List.Forall_nil _)) as Hl.
    destruct (wrap_loop _ [] []) as [lines currentLine]. cbn [fst] in Hl.
    destruct currentLine as [| c cur']; cbn [nonempty]; [exact Hl |].
    apply Forall_app. split; [exact Hl |].
    constructor; [discriminate | constructor].
  - destruct (Nat.ltb_spec 40 (length (textLines text))) as [Hlong | Hshort].
    + split; [discriminate |].
      intros Hsame. apply (f_equal (@length _)) in Hsame.
      rewrite length_take in Hsame. lia.
    + split; [| reflexivity]. intros _. apply firstn_all2. exact Hshort.
  - destruct (Nat.ltb_spec 40 (length (textLines text))) as [Hlong | Hshort].
    + intros _. rewrite length_take. lia.
    + intros H. contradiction H. reflexivity.
Qed.

End LayoutKeeps.

(** A text of 45 full lines: 40 are displayed, under the marker. *)
Lemma X4_marker_exactly_when_cut_witness :
  length (Layout.displayLines (Layout.layoutPage Inputs.manyLines (lit "txt")))
  = 40.
Proof.
  destruct (X4_marker_exactly_when_cut Inputs.manyLines (lit "txt"))
    as (_ & _ & _ & Hcut).
  apply Hcut. vm_compute. discriminate.
Defined.

(** ** FormatDispatcher: what the branches hand to the renderer *)

Section BranchTexts.

Import Layout.

Lemma blank_false (s : jsstring) :
  existsb (fun c => negb (is_space c)) s = true -> blank s = false.
Proof. intros H. unfold blank. rewrite nonempty_trim, H. reflexivity. Qed.

(** X5: the text of a workbook and the text of a legacy binary document
    are never blank, so [createTextImage] renders them as they are and
    never puts its own text for empty content in their place. *)
Theorem X5_extracted_text_is_never_blank :
  (forall wb : Excel.Workbook,
     effectiveText (Excel.excelContent wb) = Excel.excelContent wb)
  /\ (forall (env : Hwp.Env) (filePath : string) (buf : buffer),
        effectiveText (Hwp.hwpText env filePath buf)
        = Hwp.hwpText env filePath buf).
Proof.
  split.
  - intros wb. unfold effectiveText, blank, Excel.excelContent.
    set (content := if (3 <? _)%nat then _ else _).
    destruct (nonempty (trim content)) eqn:Hshown; cbn [negb].
    + rewrite Hshown. reflexivity.
    + reflexivity.
  - intros env filePath buf. unfold effectiveText.
    rewrite blank_false; [reflexivity |].
    unfold Hwp.hwpText, Hwp.emitted.
    destruct (negb _ || _); reflexivity.
Qed.

(** X6: a salvage of ten characters or more is handed over in a text of
    at most 2037 characters (heading, 2000 characters, suffix), so the cut
    of [createTextImage] at 3000 characters never shortens it: the suffix
    that tells of the truncation is always part of what is laid out. *)
Theorem X6_salvage_fits_the_page_budget (env : Hwp.Env) (filePath : string)
  (buf : buffer) :
  let salvage := Hwp.cleanUp (Hwp.method1 env buf ++ Hwp.method2 buf) in
  10 <= length salvage ->
  length (Hwp.hwpText env filePath buf) <= 2037
  /\ take 3000 (Hwp.hwpText env filePath buf) = Hwp.hwpText env filePath buf.
Proof.
  cbv zeta. intros Hlong.
  assert (Hlen : length (Hwp.hwpText env filePath buf) <= 2037).
  { unfold Hwp.hwpText, Hwp.emitted.
    set (salvage := Hwp.cleanUp _) in *.
    replace (length salvage <? 10)%nat with false
      by (symmetry; apply Nat.ltb_ge; exact Hlong).
    destruct salvage as [| c rest] eqn:Hs; [cbn in Hlong; lia |].
    rewrite <- Hs. replace (nonempty salvage) with true
      by (rewrite Hs; reflexivity).
    cbn [negb orb]. rewrite !length_app, length_take.
    change (length Hwp.HEADING) with 19.
    destruct (2000 <? length salvage)%nat.
    - change (length Hwp.TRUNCATED) with 18. lia.
    - cbn [length]. lia. }
  split; [exact Hlen |]. apply firstn_all2. lia.
Qed.

End BranchTexts.

(** The sentence of 25 characters, under its heading. *)
Lemma X6_salvage_fits_the_page_budget_witness :
  take 3000 (Hwp.hwpText Inputs.asciiHwp "report.hwp" Inputs.sentence)
  = Hwp.hwpText Inputs.asciiHwp "report.hwp" Inputs.sentence.
Proof.
  apply (X6_salvage_fits_the_page_budget Inputs.asciiHwp "report.hwp"
           Inputs.sentence).
  vm_compute. lia.
Defined.

(** ** [trim] and the cleaning of the salvage *)

Section TrimFacts.

Lemma drop_spaces_is_drop (s : jsstring) :
  exists k, drop_spaces s = drop k s.
Proof.
  induction s as [| c r IH].
  - exists 0. reflexivity.
  - cbn [drop_spaces]. destruct (is_space c).
    + destruct IH as [k Hk]. exists (S k). exact Hk.
    + exists 0. reflexivity.
Qed.

Lemma drop_spaces_head (s : jsstring) (c : jschar) (rest : jsstring) :
  drop_spaces s = c :: rest -> is_space c = false.
Proof.
  induction s as [| x r IH]; [discriminate |].
  cbn [drop_spaces]. destruct (is_space x) eqn:Hx; [exact IH |].
  intros H. inversion H. subst. exact Hx.
Qed.

(** [trim] keeps a stretch of what is left after the leading white space. *)
Lemma trim_is_take (s : jsstring) :
  exists m, trim s = take m (drop_spaces s).
Proof.
  unfold trim.
  destruct (drop_spaces_is_drop (rev (drop_spaces s))) as [k Hk].
  rewrite Hk, List.skipn_rev, rev_involutive. eexists. reflexivity.
Qed.

Lemma In_drop_spaces (s : jsstring) (c : jschar) :
  In c (drop_spaces s) -> In c s.
Proof.
  destruct (drop_spaces_is_drop s) as [k Hk]. rewrite Hk. intros Hin.
  rewrite <- (take_drop k s). apply in_or_app. right. exact Hin.
Qed.

Lemma In_trim (s : jsstring) (c : jschar) : In c (trim s) -> In c s.
Proof.
  destruct (trim_is_take s) as [m Hm]. rewrite Hm. intros Hin.
  apply In_drop_spaces. rewrite <- (take_drop m (drop_spaces s)).
  apply in_or_app. left. exact Hin.
Qed.

(** What [trim] returns neither starts nor ends with white space. *)
Lemma trim_ends (s : jsstring) :
  (forall c rest, trim s = c :: rest -> is_space c = false)
  /\ (forall c front, trim s = front ++ [c] -> is_space c = false).
Proof.
  split.
  - intros c rest Heq. destruct (trim_is_take s) as [m Hm].
    rewrite Hm in Heq. destruct m as [| m]; [discriminate |].
    destruct (drop_spaces s) as [| x r] eqn:Hd; [discriminate |].
    cbn [take firstn] in Heq. inversion Heq. subst.
    apply (drop_spaces_head s c r Hd).
  - intros c front Heq. unfold trim in Heq.
    apply (f_equal (@rev _)) in Heq.
    rewrite rev_involutive, rev_app_distr in Heq. cbn [rev app] in Heq.
    apply (drop_spaces_head _ c _ Heq).
Qed.

Lemma In_collapse_ws_from (s : jsstring) (in_ws : bool) (c : jschar) :
  In c (collapse_ws_from s in_ws) ->
  c = 32%N \/ (In c s /\ is_space c = false).
Proof.
  revert in_ws. induction s as [| x r IH]; intros in_ws Hin; [destruct Hin |].
  cbn [collapse_ws_from] in Hin. destruct (is_space x) eqn:Hx.
  - destruct in_ws.
    + destruct (IH true Hin) as [-> | [Hr Hc]]; [left; reflexivity |].
      right. split; [right; exact Hr | exact Hc].
    + destruct Hin as [<- | Hin]; [left; reflexivity |].
      destruct (IH true Hin) as [-> | [Hr Hc]]; [left; reflexivity |].
      right. split; [right; exact Hr | exact Hc].
  - destruct Hin as [<- | Hin].
    + right. split; [left; reflexivity | exact Hx].
    + destruct (IH false Hin) as [-> | [Hr Hc]]; [left; reflexivity |].
      right. split; [right; exact Hr | exact Hc].
Qed.

(** X7: the cleaned salvage holds none of the control characters
    U+0000..U+001F and U+007F..U+009F, its only white space is the plain
    space, and it neither starts nor ends with one. *)
Theorem X7_cleaned_salvage (extractedText : jsstring) :
  let cleaned := Hwp.cleanUp extractedText in
  (forall c, In c cleaned ->
     Hwp.is_c0c1 c = false /\ (is_space c = true -> c = 32%N))
  /\ (forall c rest, cleaned = c :: rest -> is_space c = false)
  /\ (forall c front, cleaned = front ++ [c] -> is_space c = false).
Proof.
  cbv zeta. unfold Hwp.cleanUp. split; [| apply trim_ends].
  intros c Hin. apply In_trim in Hin.
  unfold remove_class in Hin. apply List.filter_In in Hin.
  destruct Hin as [Hin Hctl]. apply negb_true_iff in Hctl.
  split; [exact Hctl |].
  intros Hspace. unfold collapse_ws in Hin.
  destruct (In_collapse_ws_from _ false c Hin) as [-> | [_ Hsolid]];
    [reflexivity | congruence].
Qed.

End TrimFacts.

(** A salvage between line breaks and a zero byte. *)
Lemma X7_cleaned_salvage_witness :
  is_space 104%N = false.
Proof.
  destruct (X7_cleaned_salvage ([10; 0]%N ++ lit "hello  world" ++ [9; 10]%N))
    as (_ & Hhead & _).
  apply (Hhead 104%N (lit "ello world")). vm_compute. reflexivity.
Defined.

(** ** The scan of the binary string for the syllable range *)

Section BinaryScan.

Import Hwp.

(** X8: a buffer holds bytes, and a byte is no syllable: the scan of the
    binary string for the syllable range keeps no run at all, so that all
    it can add to the salvage is a line break; what Method 2 adds comes
    from the scan for mixed runs. *)
Theorem X8_syllable_scan_of_bytes_keeps_nothing (buf : buffer) :
  Forall (fun c => (c < 256)%N) buf ->
  koreanKept buf = []
  /\ method2 buf
     = (if found (koreanMatches buf) then nl else [])
       ++ (if found (asciiMatches buf)
           then join (lit " ") (asciiKept buf) ++ nl else []).
Proof.
  intros Hbytes. pose proof (koreanKept_bytes buf Hbytes) as Hnone.
  split; [exact Hnone |].
  unfold method2. rewrite Hnone. reflexivity.
Qed.

End BinaryScan.

(** A sentence: its spaces are matched by the first scan and dropped. *)
Lemma X8_syllable_scan_of_bytes_keeps_nothing_witness :
  Hwp.koreanKept Inputs.sentence = [].
Proof.
  apply (X8_syllable_scan_of_bytes_keeps_nothing Inputs.sentence).
  repeat constructor.
Defined.

(** ** CompressionPlanner: order and range *)

Section PlannerOrder.

Import Compression.

Local Open Scope Z_scope.

(** One step of the comparison of two runs through the threshold chain:
    decide a test, and drop the cases that the order of the ratios rules
    out. *)
Ltac threshold_case r1 r2 k :=
  destruct (gt r1 k) eqn:?H1; destruct (gt r2 k) eqn:?H2;
  try lia;
  try (exfalso;
       match goal with
       | Ha : gt r1 k = true, Hb : gt r2 k = false |- _ =>
         apply gt_true in Ha; apply gt_false in Hb
       end;
       match goal with
       | Hle : (r1 <= r2)%Qc, Ha : (k < r1)%Qc, Hb : (r2 <= k)%Qc |- _ =>
         exact (Qclt_not_le _ _ (Qclt_le_trans _ _ _ Ha Hle) Hb)
       end).

Lemma qualityOfRatio_monotone (r1 r2 : Qc) :
  (r1 <= r2)%Qc -> qualityOfRatio r1 <= qualityOfRatio r2.
Proof.
  intros Hle. unfold qualityOfRatio.
  threshold_case r1 r2 (qc 9 10).
  all: threshold_case r1 r2 (qc 7 10).
  all: threshold_case r1 r2 (qc 5 10).
  all: threshold_case r1 r2 (qc 3 10).
Qed.

Lemma Qcdiv_mult_cancel (t cur : Qc) :
  cur <> 0%Qc -> (t / cur * cur)%Qc = t.
Proof.
  intros Hcur. unfold Qcdiv.
  rewrite <- Qcmult_assoc, (Qcmult_comm (/ cur)), Qcmult_inv_r by exact Hcur.
  apply Qcmult_1_r.
Qed.


(** X10: the quality that the planner returns is one of 40, 55, 60, 70,
    80, 85 and 95, whatever the tier, the target and the input size: the
    clamp to [10, 100] at its end never changes a value. *)
Theorem X10_planner_quality_values (ty : string) (target : option Qc)
  (cur : Qc) :
  In (quality (calculateCompressionSettings ty target cur))
    [40; 55; 60; 70; 80; 85; 95].
Proof.
  unfold calculateCompressionSettings.
  destruct (String.eqb ty "low"); [cbn; tauto |].
  destruct (String.eqb ty "medium"); [cbn; tauto |].
  destruct (String.eqb ty "high"); [cbn; tauto |].
  destruct (String.eqb ty "custom"); [| cbn; tauto].
  destruct target as [t |]; [| cbn; tauto].
  destruct (truthy (Some t) && truthy (Some cur)); [| cbn; tauto].
  unfold qualityOfRatio.
  repeat match goal with
         | |- context [gt ?a ?b] => destruct (gt a b)
         end; cbn; tauto.
Qed.

End PlannerOrder.


(** ** Deletion: the other files *)

Section DeletionFrame.

Import Render Deletion.


End DeletionFrame.


(** ** The name of the intermediate image *)

Section PngPath.

Import Path.

Lemma replace_jpg_skip1 (c : ascii) (r : list ascii) :
  c <> "."%char -> replace_jpg (c :: r) = c :: replace_jpg r.
Proof.
  intros Hne. destruct c as [[] [] [] [] [] [] [] []];
    try reflexivity. exfalso. apply Hne. reflexivity.
Qed.

Lemma replace_jpg_skip2 (c : ascii) (r : list ascii) :
  c <> "j"%char ->
  replace_jpg ("."%char :: c :: r) = "."%char :: replace_jpg (c :: r).
Proof.
  intros Hne. destruct c as [[] [] [] [] [] [] [] []];
    try reflexivity. exfalso. apply Hne. reflexivity.
Qed.

Lemma replace_jpg_skip3 (c : ascii) (r : list ascii) :
  c <> "p"%char ->
  replace_jpg ("."%char :: "j"%char :: c :: r)
  = "."%char :: replace_jpg ("j"%char :: c :: r).
Proof.
  intros Hne. destruct c as [[] [] [] [] [] [] [] []];
    try reflexivity. exfalso. apply Hne. reflexivity.
Qed.

Lemma replace_jpg_skip4 (c : ascii) (r : list ascii) :
  c <> "g"%char ->
  replace_jpg ("."%char :: "j"%char :: "p"%char :: c :: r)
  = "."%char :: replace_jpg ("j"%char :: "p"%char :: c :: r).
Proof.
  intros Hne. destruct c as [[] [] [] [] [] [] [] []];
    try reflexivity. exfalso. apply Hne. reflexivity.
Qed.

(** A name that ends in [.jpg] is changed by the replacement. *)
Lemma replace_jpg_changes (l : list ascii) :
  replace_jpg (l ++ list_ascii_of_string ".jpg")
  <> l ++ list_ascii_of_string ".jpg".
Proof.
  induction l as [| c l IH]; [cbn; discriminate |].
  intros Heq. cbn [app] in Heq.
  destruct (ascii_dec c "."%char) as [-> | Hc].
  2:{ rewrite (replace_jpg_skip1 c _ Hc) in Heq.
      apply (f_equal (@List.tl ascii)) in Heq. exact (IH Heq). }
  destruct l as [| c2 l2]; [cbn in Heq; discriminate |].
  cbn [app] in Heq, IH.
  destruct (ascii_dec c2 "j"%char) as [-> | Hc2].
  2:{ rewrite (replace_jpg_skip2 c2 _ Hc2) in Heq.
      apply (f_equal (@List.tl ascii)) in Heq. exact (IH Heq). }
  destruct l2 as [| c3 l3]; [cbn in Heq; discriminate |].
  cbn [app] in Heq, IH.
  destruct (ascii_dec c3 "p"%char) as [-> | Hc3].
  2:{ rewrite (replace_jpg_skip3 c3 _ Hc3) in Heq.
      apply (f_equal (@List.tl ascii)) in Heq. exact (IH Heq). }
  destruct l3 as [| c4 l4]; [cbn in Heq; discriminate |].
  cbn [app] in Heq, IH.
  destruct (ascii_dec c4 "g"%char) as [-> | Hc4].
  2:{ rewrite (replace_jpg_skip4 c4 _ Hc4) in Heq.
      apply (f_equal (@List.tl ascii)) in Heq. exact (IH Heq). }
  cbn in Heq. discriminate.
Qed.

Lemma list_ascii_of_append (a b : string) :
  list_ascii_of_string (String.append a b)
  = list_ascii_of_string a ++ list_ascii_of_string b.
Proof.
  induction a as [| c a IH]; [reflexivity |].
  simpl. f_equal. exact IH.
Qed.

(** The intermediate image of a temporary image is another file. *)
Lemma pngPath_tempImagePath (n : nat) :
  pngPath (tempImagePath n) <> tempImagePath n.
Proof.
  unfold pngPath, tempImagePath. intros Heq.
  apply (f_equal list_ascii_of_string) in Heq.
  rewrite list_ascii_of_string_of_list_ascii in Heq.
  rewrite !list_ascii_of_append, app_assoc in Heq.
  exact (replace_jpg_changes _ Heq).
Qed.

End PngPath.

(** ** The results of a conversion *)

Section OutcomeFacts.

Import Render Outcome.

Variable env : Env.
Variable Q : FS -> ConvResult -> Prop.

Lemma ensures_bind {A} (m : M FS A) (k : A -> M FS ConvResult) :
  (forall a, ensures Q (k a)) -> ensures Q (bind m k).
Proof.
  intros Hk fs fs' r. unfold bind.
  destruct (m fs) as [fs1 [a | e]]; [apply Hk | discriminate].
Qed.

Lemma ensures_tryM (body : M FS ConvResult)
  (handler : JsError -> M FS ConvResult) :
  ensures Q body -> (forall e, ensures Q (handler e)) ->
  ensures Q (tryM body handler).
Proof.
  intros Hb Hh fs fs' r. unfold tryM.
  destruct (body fs) as [fs1 [a | e]] eqn:Hrun.
  - intros Heq. inversion Heq. subst. apply (Hb fs fs' r Hrun).
  - apply Hh.
Qed.

Lemma ensures_ret (r : ConvResult) :
  (forall fs, Q fs r) -> ensures Q (ret r).
Proof. intros Hr fs fs' r' Heq. inversion Heq. subst. apply Hr. Qed.

Lemma ensures_toFile_true (input : SharpInput) (format : SharpFormat)
  (out : string) :
  (forall fs : FS, Q ({[out]} ∪ fs) RTrue) ->
  ensures Q (bind (toFile env input format out) (fun _ => ret RTrue)).
Proof.
  intros Hq fs fs' r. unfold bind, toFile, ret.
  destruct (sharp_error env input format); [discriminate |].
  intros Heq. inversion Heq. subst. apply Hq.
Qed.

End OutcomeFacts.

Section Written.

Import Render Outcome.

Variable env : Env.
Variable outputPath : string.

Lemma written_true (fs : FS) : written outputPath ({[outputPath]} ∪ fs) RTrue.
Proof.
  split; [intros _; apply elem_of_union_l, elem_of_singleton; reflexivity
         | discriminate].
Qed.

Lemma written_false (fs : FS) : written outputPath fs RFalse.
Proof. split; discriminate. Qed.

Lemma createErrorImage_written (errorMessage : jsstring) :
  ensures (written outputPath)
    (createErrorImage env outputPath errorMessage).
Proof.
  unfold createErrorImage. apply ensures_tryM; [| intros e];
    apply ensures_toFile_true; exact written_true.
Qed.

Lemma createSimpleTextImage_written (text fileType : jsstring) :
  ensures (written outputPath)
    (createSimpleTextImage env text outputPath fileType).
Proof.
  unfold createSimpleTextImage. apply ensures_tryM.
  - apply ensures_bind. intros _.
    apply ensures_toFile_true. exact written_true.
  - intros e. apply ensures_ret. exact written_false.
Qed.

Lemma createTextImage_written (text fileType : jsstring) :
  Path.pngPath outputPath <> outputPath ->
  ensures (written outputPath)
    (createTextImage env text outputPath fileType).
Proof.
  intros Hpng. unfold createTextImage. apply ensures_tryM;
    [| intros e; apply createSimpleTextImage_written].
  intros fs fs' r. unfold bind, tryM, toFile, unlinkSync, ret.
  destruct (sharp_error env (InSvg _) Png); [discriminate |].
  destruct (sharp_error env (InFile _) (Jpeg 95)); [discriminate |].
  destruct (bool_decide _); intros Heq; inversion Heq; subst;
    (split; [intros _ | discriminate]).
  - rewrite elem_of_difference, elem_of_union, !elem_of_singleton.
    split; [left; reflexivity | intros H; apply Hpng; symmetry; exact H].
  - apply elem_of_union_l, elem_of_singleton. reflexivity.
Qed.

Lemma textBranch_written (extraction : result jsstring)
  (fileType : jsstring) (diagnostic : JsError -> jsstring) :
  Path.pngPath outputPath <> outputPath ->
  ensures (written outputPath)
    (textBranch env extraction outputPath fileType diagnostic).
Proof.
  intros Hpng. unfold textBranch. apply ensures_tryM.
  - apply ensures_bind. intros text. apply createTextImage_written.
    exact Hpng.
  - intros e. apply createErrorImage_written.
Qed.

Lemma convertToImage_written (filePath fileType : string) :
  Path.pngPath outputPath <> outputPath ->
  Path.extname_lower filePath <> ".pdf" ->
  ensures (written outputPath)
    (convertToImage env filePath outputPath fileType).
Proof.
  intros Hpng Hext. unfold convertToImage.
  apply ensures_tryM; [| intros e; apply createErrorImage_written].
  destruct (isImageExt _);
    [apply ensures_toFile_true; exact written_true |].
  repeat match goal with
         | |- ensures _ (if ?b then _ else _) =>
           let Hb := fresh "Hb" in
           destruct b eqn:Hb; [try (apply textBranch_written; exact Hpng) |]
         end.
  - exfalso. apply Hext. apply String.eqb_eq. assumption.
  - apply ensures_tryM; [| intros e; apply createErrorImage_written].
    apply ensures_bind. intros textContent.
    destruct (_ && _);
      [apply createTextImage_written; exact Hpng
      | apply createErrorImage_written].
Qed.

(** X12: whenever [convertToImage] returns [true] for a file that is not a
    PDF, the output image is there (provided the name of the intermediate
    image differs from the output name, as it does for every name ending
    in [.jpg]); and it returns ['pdf'] for the extension [.pdf] only. So
    the second test of the loop, that the image exists, never fails after
    a result [true]. *)
Theorem X12_true_comes_with_the_image (filePath fileType : string)
  (fs fs' : FS) (r : ConvResult) :
  Path.pngPath outputPath <> outputPath ->
  Path.extname_lower filePath <> ".pdf" ->
  convertToImage env filePath outputPath fileType fs = (fs', Ok r) ->
  (r = RTrue -> outputPath ∈ fs') /\ r <> RPdf.
Proof.
  intros Hpng Hext. apply (convertToImage_written _ _ Hpng Hext).
Qed.

(** A raster image is never answered with [false]: the image branch
    returns [true] or throws, and so does the error image of the outer
    [catch]. *)
Lemma convertToImage_image_not_false (filePath fileType : string) :
  isImageExt (Path.extname_lower filePath) = true ->
  ensures notFalse (convertToImage env filePath outputPath fileType).
Proof.
  intros Himage. unfold convertToImage. rewrite Himage.
  apply ensures_tryM.
  - apply ensures_toFile_true. intros fs. discriminate.
  - intros e. unfold createErrorImage. apply ensures_tryM; [| intros e'];
      apply ensures_toFile_true; intros fs; discriminate.
Qed.

End Written.

(** The text file of the batch, with libraries that render without fault. *)
Lemma X12_true_comes_with_the_image_witness :
  "temp/temp-42.jpg"
  ∈ (Render.convertToImage Inputs.quietRender
       (Path.uploadPath "1700000000000-notes.txt") "temp/temp-42.jpg" "text"
       Inputs.uploads).1.
Proof.
  destruct (Render.convertToImage Inputs.quietRender
              (Path.uploadPath "1700000000000-notes.txt") "temp/temp-42.jpg"
              "text" Inputs.uploads) as [fs' r] eqn:Hrun.
  assert (Hr : r = Ok Render.RTrue).
  { apply (f_equal snd) in Hrun. vm_compute in Hrun. symmetry. exact Hrun. }
  subst r.
  destruct (X12_true_comes_with_the_image Inputs.quietRender
              "temp/temp-42.jpg" (Path.uploadPath "1700000000000-notes.txt")
              "text" Inputs.uploads fs' Render.RTrue) as [Hthere _].
  - vm_compute. discriminate.
  - vm_compute. discriminate.
  - exact Hrun.
  - apply Hthere. reflexivity.
Defined.

(** ** PdfAssembler: the page of a file that is not a PDF *)

Section PageOfFile.

Import Render Assembler Outcome.

Variable env : Assembler.Env.
Variable quality : Z.

(** The turn of a file that is there and is not a PDF, by the result of
    its conversion. *)
Lemma processFile_by_conversion (fileInfo : FileInfo) (st : LoopState)
  (fs1 : FS) (conversion : result ConvResult) :
  missing st fileInfo = false ->
  isPdf fileInfo = false ->
  convertToImage (render env) (Path.uploadPath (filename fileInfo))
    (Path.tempImagePath (now env fileInfo)) (type fileInfo) (fs st)
  = (fs1, conversion) ->
  (conversion = Ok RTrue -> Path.tempImagePath (now env fileInfo) ∈ fs1) ->
  let temp := Path.tempImagePath (now env fileInfo) in
  processFile env quality fileInfo st
  = match conversion with
    | Ok RTrue =>
      match sharp_error (render env) (InFile temp) (Jpeg quality),
            embedJpg_error env temp quality with
      | None, None =>
        ({| doc := doc st ++ [ImagePage temp quality];
            fs := fs1 ∖ {[temp]} |}, Ok tt)
      | Some e, _ =>
        ({| doc := doc st ++ [errorPage fileInfo e]; fs := fs1 |}, Ok tt)
      | None, Some e =>
        ({| doc := doc st ++ [errorPage fileInfo e]; fs := fs1 |}, Ok tt)
      end
    | Ok _ => ({| doc := doc st; fs := fs1 |}, Ok tt)
    | Throw e =>
      ({| doc := doc st ++ [errorPage fileInfo e]; fs := fs1 |}, Ok tt)
    end.
Proof.
  intros Hthere Hother Hconv Htemp. cbv zeta.
  destruct st as [d fs0]. cbn [doc fs] in *.
  unfold missing in Hthere. apply negb_false_iff in Hthere.
  cbn [fs] in Hthere. unfold isPdf in Hother.
  unfold processFile, bind, onFiles, existsSync, gets. cbn [doc fs].
  rewrite Hthere. unfold tryM, tryBlock. rewrite Hother.
  unfold bind at 1. unfold onFiles at 1. cbn [doc fs]. rewrite Hconv.
  destruct conversion as [cr | e]; [| reflexivity].
  unfold bind, onFiles, existsSync, gets, toBuffer, liftR, addPage, modify,
    unlinkSync, ret, throw.
  cbn [doc fs].
  destruct cr.
  - rewrite !bool_decide_eq_true_2 by (apply Htemp; reflexivity).
    destruct (sharp_error (render env) _ (Jpeg quality)); [reflexivity |].
    destruct (embedJpg_error env _ quality); [reflexivity |].
    cbn [doc fs].
    rewrite !bool_decide_eq_true_2 by (apply Htemp; reflexivity).
    reflexivity.
  - destruct (bool_decide _); reflexivity.
  - destruct (bool_decide _); reflexivity.
Qed.

Lemma last_segment_rev_slash (a b : list ascii) :
  Path.last_segment_rev (a ++ "/"%char :: b) = Path.last_segment_rev a.
Proof.
  induction a as [| c a IH]; [reflexivity |].
  cbn [app Path.last_segment_rev]. destruct (Ascii.eqb c "/"); [reflexivity |].
  rewrite IH. reflexivity.
Qed.

(** The extension of a file is the extension of its path among the
    uploads. *)
Lemma extname_uploadPath (name : string) :
  Path.extname_lower (Path.uploadPath name) = Path.extname_lower name.
Proof.
  unfold Path.extname_lower, Path.uploadPath.
  rewrite list_ascii_of_append, rev_app_distr.
  change (rev (list_ascii_of_string "uploads/"))
    with ("/"%char :: rev (list_ascii_of_string "uploads")).
  rewrite last_segment_rev_slash. reflexivity.
Qed.

Lemma conversion_written (fileInfo : FileInfo) (fs0 fs1 : FS)
  (cr : ConvResult) :
  isPdf fileInfo = false ->
  convertToImage (render env) (Path.uploadPath (filename fileInfo))
    (Path.tempImagePath (now env fileInfo)) (type fileInfo) fs0
  = (fs1, Ok cr) ->
  (cr = RTrue -> Path.tempImagePath (now env fileInfo) ∈ fs1) /\ cr <> RPdf.
Proof.
  intros Hother. apply convertToImage_written.
  - apply pngPath_tempImagePath.
  - rewrite extname_uploadPath. unfold isPdf in Hother.
    intros Heq. rewrite Heq in Hother. discriminate Hother.
Qed.




End PageOfFile.



(** ** Stored names *)

Section StoredNames.

Import Storage.

Lemma digits_of_uint (d : Decimal.uint) :
  Forall (fun c => is_digit c = true) (lit (NilEmpty.string_of_uint d)).
Proof.
  induction d; cbn; constructor; try reflexivity; assumption.
Qed.

Lemma of_nat_digits (n : nat) :
  Forall (fun c => is_digit c = true) (of_nat n).
Proof. apply digits_of_uint. Qed.

Lemma kept_is_plain (c : jschar) :
  kept c = true ->
  c <> 47%N /\ c <> 92%N /\ is_space c = false
  /\ Layout.is_control c = false.
Proof.
  unfold kept, is_alnum, is_letter, is_digit, is_hangul. intros Hkept.
  rewrite ?orb_true_iff, ?andb_true_iff, ?N.leb_le, ?N.eqb_eq in Hkept.
  split; [lia |]. split; [lia |]. split.
  - destruct (is_space c) eqn:Hspace; [exfalso | reflexivity].
    unfold is_space in Hspace.
    rewrite ?orb_true_iff, ?andb_true_iff, ?N.leb_le, ?N.eqb_eq in Hspace.
    lia.
  - destruct (Layout.is_control c) eqn:Hcontrol; [exfalso | reflexivity].
    unfold Layout.is_control in Hcontrol.
    rewrite ?orb_true_iff, ?andb_true_iff, ?N.leb_le, ?N.eqb_eq in Hcontrol.
    lia.
Qed.

(** X16: a stored name is made of letters, digits, Hangul syllables, dots,
    hyphens and underscores only, whatever the name that the client sent:
    it holds no slash, no backslash, no white space and no control
    character, so that it names a file directly in the upload directory.
    The name that was sent keeps its length and every character that the
    pattern allows. *)
Theorem X16_stored_name_is_one_segment (timestamp : nat)
  (originalname : jsstring) :
  (forall c, In c (filename timestamp originalname) ->
     kept c = true /\ c <> 47%N /\ c <> 92%N /\ is_space c = false
     /\ Layout.is_control c = false)
  /\ length (sanitizedName originalname) = length originalname
  /\ (forall i c, nth_error originalname i = Some c -> kept c = true ->
      nth_error (sanitizedName originalname) i = Some c).
Proof.
  split; [| split].
  - intros c Hin.
    assert (Hkept : kept c = true).
    { unfold filename in Hin.
      apply in_app_or in Hin as [Hin | Hin].
      - pose proof (of_nat_digits timestamp) as Hdigits.
        rewrite List.Forall_forall in Hdigits.
        unfold kept, is_alnum. rewrite (Hdigits c Hin).
        rewrite orb_true_r. reflexivity.
      - apply in_app_or in Hin as [Hin | Hin].
        + destruct Hin as [<- | []]. reflexivity.
        + unfold sanitizedName in Hin. apply in_map_iff in Hin.
          destruct Hin as (x & Hx & _).
          destruct (kept x) eqn:Hkx; subst c; [exact Hkx | reflexivity]. }
    split; [exact Hkept | apply kept_is_plain; exact Hkept].
  - apply length_map.
  - intros i c Hnth Hkept. unfold sanitizedName.
    rewrite nth_error_map, Hnth. cbn. rewrite Hkept. reflexivity.
Qed.

Lemma split_at_hyphen (a b x y : jsstring) :
  Forall (fun c => is_digit c = true) a ->
  Forall (fun c => is_digit c = true) b ->
  a ++ 45%N :: x = b ++ 45%N :: y -> a = b /\ x = y.
Proof.
  intros Ha. revert b. induction Ha as [| c a Hc Ha IH]; intros b Hb Heq.
  - destruct Hb as [| d b Hd Hb]; cbn in Heq.
    + injection Heq as ->. split; reflexivity.
    + injection Heq as <- _. discriminate Hd.
  - destruct Hb as [| d b Hd Hb]; cbn in Heq.
    + injection Heq as -> _. discriminate Hc.
    + injection Heq as -> Heq. destruct (IH b Hb Heq) as [-> ->].
      split; reflexivity.
Qed.

Lemma lit_injective (s t : string) : lit s = lit t -> s = t.
Proof.
  unfold lit. intros Heq.
  rewrite <- (string_of_list_ascii_of_string s),
          <- (string_of_list_ascii_of_string t).
  f_equal.
  revert Heq. generalize (list_ascii_of_string t).
  induction (list_ascii_of_string s) as [| c l IH]; intros [| d m] Heq;
    try discriminate Heq; [reflexivity |].
  cbn in Heq. injection Heq as Hc Hl.
  rewrite <- (ascii_N_embedding c), <- (ascii_N_embedding d), Hc.
  f_equal. apply IH. exact Hl.
Qed.

Lemma of_nat_injective (m n : nat) : of_nat m = of_nat n -> m = n.
Proof.
  unfold of_nat. intros Heq. apply lit_injective in Heq.
  apply (f_equal NilEmpty.uint_of_string) in Heq.
  rewrite !NilEmpty.usu in Heq. injection Heq as Heq.
  rewrite <- (Unsigned.of_to m), <- (Unsigned.of_to n), Heq. reflexivity.
Qed.

(** X17: the stored name tells the time of the upload: two uploads get
    the same stored name only when they were received in the same
    millisecond under names that are made the same by the replacement.
    Files received at different times never overwrite each other. *)
Theorem X17_same_stored_name (t1 t2 : nat) (name1 name2 : jsstring) :
  filename t1 name1 = filename t2 name2 ->
  t1 = t2 /\ sanitizedName name1 = sanitizedName name2.
Proof.
  unfold filename. intros Heq.
  destruct (split_at_hyphen _ _ _ _ (of_nat_digits t1) (of_nat_digits t2) Heq)
    as [Htime Hname].
  split; [apply of_nat_injective; exact Htime | exact Hname].
Qed.

End StoredNames.

(** A name with a slash: the slash is stored as an underscore. *)
Lemma X16_stored_name_is_one_segment_witness :
  Storage.filename 42 (lit "a/b") = lit "42-a_b"
  /\ Storage.kept 95%N = true.
Proof.
  split; [reflexivity |].
  apply (X16_stored_name_is_one_segment 42 (lit "a/b")).
  vm_compute. tauto.
Defined.

(** Two names that differ in a character outside the pattern, received in
    the same millisecond. *)
Lemma X17_same_stored_name_witness :
  Storage.filename 42 (lit "my file.txt")
  = Storage.filename 42 (lit "my_file.txt")
  /\ Storage.sanitizedName (lit "my file.txt")
     = Storage.sanitizedName (lit "my_file.txt").
Proof.
  assert (Heq : Storage.filename 42 (lit "my file.txt")
                = Storage.filename 42 (lit "my_file.txt")).
  { reflexivity. }
  split; [exact Heq |].
  exact (proj2 (X17_same_stored_name _ _ _ _ Heq)).
Defined.

(** ** The types of uploaded files *)

Section FileTypes.

Import Upload.

Lemma getFileType_known (mimetype filename : string) :
  In (getFileType mimetype filename) (map fst Client.fileTypeIcons)
  /\ In (getFileType mimetype filename) (map fst Client.labels).
Proof.
  unfold getFileType.
  repeat match goal with
         | |- context [if ?b then _ else _] => destruct b
         end; cbn; tauto.
Qed.

(** X18: the answer to an upload lists the files in the order in which
    they were received, under their stored names and with their sizes, and
    the type that it gives to each is one of the six types for which the
    page has an icon and a label of their own. *)
Theorem X18_uploaded_types_are_known (received : list File) :
  received <> [] ->
  exists entries message,
    handler (Some received)
    = {| status := 200; body := Uploaded entries message |}
    /\ map (fun e => Assembler.filename (info e)) entries
       = map filename received
    /\ map (fun e => Assembler.size (info e)) entries = map size received
    /\ forall e, In e entries ->
         In (Assembler.type (info e)) (map fst Client.fileTypeIcons)
         /\ In (Assembler.type (info e)) (map fst Client.labels).
Proof.
  intros Hsome. destruct received as [| file rest]; [contradiction |].
  eexists _, _. split; [reflexivity |].
  split; [rewrite map_map; reflexivity |].
  split; [rewrite map_map; reflexivity |].
  intros e Hin. apply in_map_iff in Hin as (f & <- & _).
  apply getFileType_known.
Qed.

End FileTypes.

(** An upload of a scan and of a file without a known extension. *)
Lemma X18_uploaded_types_are_known_witness :
  exists entries message,
    Upload.handler (Some Inputs.received)
    = {| Upload.status := 200; Upload.body := Upload.Uploaded entries message |}
    /\ map (fun e => Assembler.type (Upload.info e)) entries
       = ["pdf"; "file"].
Proof.
  destruct (X18_uploaded_types_are_known Inputs.received)
    as (entries & message & Hanswer & _).
  - discriminate.
  - exists entries, message. split; [exact Hanswer |].
    injection Hanswer as <- _. reflexivity.
Defined.

(** ** The size preview of the page and the planner of the server *)

Section Preview.

Import Compression Client.

Lemma totalSize_of_request (uploadedFiles : list Upload.Entry) :
  totalSize uploadedFiles
  = Assembler.totalOriginalSize (map Upload.info uploadedFiles).
Proof.
  unfold totalSize, Assembler.totalOriginalSize.
  generalize 0%N.
  induction uploadedFiles as [| file rest IH]; intros acc; [reflexivity |].
  cbn [map fold_left]. apply IH.
Qed.

Lemma Qc_of_N_zero (n : N) : Q2Qc (Z.of_N n # 1) = 0%Qc -> n = 0%N.
Proof.
  intros Heq. apply Q2Qc_eq_iff in Heq. unfold Qeq in Heq. cbn in Heq. lia.
Qed.

Lemma Qc_of_N_pos (n : N) : n <> 0%N -> (0 < Q2Qc (Z.of_N n # 1))%Qc.
Proof.
  intros Hn. unfold Qclt, Q2Qc. cbn [this]. rewrite !Qred_correct.
  unfold Qlt. cbn. lia.
Qed.


End Preview.


(** ** Removing a file from the list *)

Section Removal.

Import Client.

Lemma deletion_files (filename : string) (files : Render.FS) (p : string) :
  p ∈ (Deletion.handler filename files).1
  <-> p ∈ files /\ p <> Path.uploadPath filename.
Proof.
  unfold Deletion.handler, tryM, bind, Render.existsSync, Render.unlinkSync,
    gets, ret.
  destruct (decide (Path.uploadPath filename ∈ files)) as [Hin | Hout].
  - rewrite !bool_decide_eq_true_2 by exact Hin. cbn [fst].
    rewrite elem_of_difference, elem_of_singleton. tauto.
  - rewrite !bool_decide_eq_false_2 by exact Hout. cbn [fst].
    split; [| tauto]. intros Hp. split; [exact Hp |].
    intros ->. exact (Hout Hp).
Qed.

Lemma removeFile_redrawn (b : Browser) (index : nat) (w : World) :
  (forall shown, redraw b shown = Ok tt) ->
  removeFile b index w
  = ({| uploadedFiles := delete index (uploadedFiles w);
        stored :=
          match uploadedFiles w !! index with
          | Some file =>
            (fetch_delete b (Assembler.filename (Upload.info file))
               (stored w)).1
          | None => stored w
          end |}, Ok tt).
Proof.
  intros Hredraw.
  unfold removeFile, tryM, bind, splice, modify, display, onServer, throw.
  destruct (uploadedFiles w !! index) as [file |].
  - destruct (fetch_delete b _ (stored w)) as [fs' [answer | e]];
      cbn [uploadedFiles stored fst]; rewrite Hredraw; reflexivity.
  - cbn [uploadedFiles stored]. rewrite Hredraw. reflexivity.
Qed.


(** X21: when the server has answered and the entry is off the list, a
    fault while the page is redrawn sends [removeFile] to its [catch]
    block, which removes an entry again: the entry that followed the
    removed one is lost as well, although its file stays on the server. *)
Theorem X21_redraw_fault_removes_two (b : Browser) (index : nat) (w : World)
  (file : Upload.Entry) (fs' : Render.FS) (answer : Deletion.Response)
  (e : JsError) :
  uploadedFiles w !! index = Some file ->
  fetch_delete b (Assembler.filename (Upload.info file)) (stored w)
  = (fs', Ok answer) ->
  redraw b (delete index (uploadedFiles w)) = Throw e ->
  uploadedFiles (removeFile b index w).1
  = delete index (delete index (uploadedFiles w))
  /\ stored (removeFile b index w).1 = fs'.
Proof.
  intros Hfile Hfetch Hredraw.
  unfold removeFile, tryM, bind, splice, modify, display, onServer, throw.
  rewrite Hfile, Hfetch. cbn [uploadedFiles stored]. rewrite Hredraw.
  cbn [uploadedFiles stored]. 
  destruct (redraw b _); split; reflexivity.
Qed.

End Removal.


(** The first of two entries is removed by a page that cannot redraw: the
    list is empty afterwards, and the file of the second entry is still
    stored. *)
Lemma X21_redraw_fault_removes_two_witness :
  Client.uploadedFiles
    (Client.removeFile Inputs.brokenPage 0
       {| Client.uploadedFiles := [Inputs.shownFile; Inputs.shownScan];
          Client.stored := Inputs.uploads |}).1
  = []
  /\ Path.uploadPath (Assembler.filename Inputs.pdfFile)
     ∈ Client.stored
         (Client.removeFile Inputs.brokenPage 0
            {| Client.uploadedFiles := [Inputs.shownFile; Inputs.shownScan];
               Client.stored := Inputs.uploads |}).1.
Proof.
  destruct (X21_redraw_fault_removes_two Inputs.brokenPage 0
              {| Client.uploadedFiles := [Inputs.shownFile; Inputs.shownScan];
                 Client.stored := Inputs.uploads |}
              Inputs.shownFile
              (Inputs.uploads
               ∖ {[ Path.uploadPath (Assembler.filename Inputs.oneFile) ]})
              {| Deletion.status := 200;
                 Deletion.body := Deletion.Success "File deleted successfully" |}
              Inputs.failure)
    as [Hlist Hstored].
  - reflexivity.
  - vm_compute. reflexivity.
  - reflexivity.
  - split; [exact Hlist |]. rewrite Hstored. vm_compute. reflexivity.
Defined.

(** ** The handler of [POST /convert] *)

Section LoopFrame.

Import Render Frame Assembler.

Variable env : Assembler.Env.
Variable quality : Z.

Lemma confined_weaken {S A} (view : S -> FS) (P Q : string -> Prop)
  (m : M S A) :
  (forall p, P p -> Q p) -> confined view P m -> confined view Q m.
Proof.
  intros Hsub Hm st p Hp. apply Hm. intros HP. exact (Hp (Hsub p HP)).
Qed.

Lemma confined_onFiles {A} (P : string -> Prop) (m : M FS A) :
  confined id P m -> confined fs P (onFiles m).
Proof.
  intros Hm st p Hp. unfold onFiles. specialize (Hm (fs st) p Hp).
  destruct (m (fs st)) as [fs' r]. exact Hm.
Qed.

Lemma confined_addPage (P : string -> Prop) (page : Page) :
  confined fs P (addPage page).
Proof. intros st p _. reflexivity. Qed.

Lemma confined_addPages (P : string -> Prop) (copied : list PdfPage) :
  confined fs P (addPages copied).
Proof.
  intros st p _. rewrite addPages_doc. reflexivity.
Qed.

Lemma scratch_inTemp (n : nat) (p : string) :
  scratch (Path.tempImagePath n) p -> Convert.inTemp p = true.
Proof.
  intros [-> | ->]; reflexivity.
Qed.

Lemma tryBlock_confined (fileInfo : FileInfo) :
  confined fs (scratch (Path.tempImagePath (now env fileInfo)))
    (tryBlock env quality fileInfo).
Proof.
  unfold tryBlock.
  destruct (String.eqb _ ".pdf").
  - repeat first [apply confined_addPages | confine_step].
  - apply confined_bind;
      [apply confined_onFiles, convertToImage_confined | intros cr].
    apply confined_bind;
      [apply confined_onFiles, confined_existsSync | intros present].
    destruct cr, present; try apply confined_ret.
    repeat first
      [ apply confined_addPage
      | apply confined_onFiles, confined_unlinkSync; left; reflexivity
      | confine_step ].
Qed.

Lemma processFile_confined (fileInfo : FileInfo) :
  confined fs (fun p => Convert.inTemp p = true)
    (processFile env quality fileInfo).
Proof.
  unfold processFile.
  apply confined_bind;
    [apply confined_onFiles, confined_existsSync | intros found].
  destruct found; [| apply confined_ret].
  apply confined_tryM; [| intros e; apply confined_addPage].
  apply (confined_weaken fs
           (scratch (Path.tempImagePath (now env fileInfo)))).
  - apply scratch_inTemp.
  - apply tryBlock_confined.
Qed.

(** The loop writes and removes nothing outside the directory of the
    temporary images. *)
Lemma convertLoop_confined (fileInfos : list FileInfo) :
  confined fs (fun p => Convert.inTemp p = true)
    (convertLoop env quality fileInfos).
Proof.
  induction fileInfos as [| fileInfo rest IH].
  - apply confined_ret.
  - cbn [convertLoop]. apply confined_bind;
      [apply processFile_confined | intros _; exact IH].
Qed.

End LoopFrame.

Section ConvertHandler.

Import Render Frame Assembler Convert.

Variable env : Convert.Env.
Variable req : ConvertRequest.

Lemma cleanUploads_files (fileInfos : list FileInfo) (files : FS) :
  (cleanUploads fileInfos files).2 = Ok tt
  /\ forall p,
       p ∈ (cleanUploads fileInfos files).1
       <-> p ∈ files
           /\ ~ exists fileInfo,
                  In fileInfo fileInfos
                  /\ p = Path.uploadPath (filename fileInfo).
Proof.
  revert files. induction fileInfos as [| fileInfo rest IH]; intros files.
  - cbn. split; [reflexivity |]. intros p. split; [| tauto].
    intros Hp. split; [exact Hp |]. intros (f & [] & _).
  - cbn [cleanUploads]. unfold bind, existsSync, gets, unlinkSync, ret.
    destruct (decide (Path.uploadPath (filename fileInfo) ∈ files))
      as [Hin | Hout].
    + rewrite !bool_decide_eq_true_2 by exact Hin.
      destruct (IH (files ∖ {[Path.uploadPath (filename fileInfo)]}))
        as [Hok Hfiles].
      split; [exact Hok |]. intros p. rewrite Hfiles.
      rewrite elem_of_difference, elem_of_singleton. split.
      * intros [[Hp Hne] Hrest]. split; [exact Hp |].
        intros (f & [<- | Hf] & ->); [apply Hne; reflexivity |].
        apply Hrest. exists f. split; [exact Hf | reflexivity].
      * intros [Hp Hnone]. split; [split; [exact Hp |] |].
        -- intros ->. apply Hnone. exists fileInfo.
           split; [left; reflexivity | reflexivity].
        -- intros (f & Hf & ->). apply Hnone. exists f.
           split; [right; exact Hf | reflexivity].
    + rewrite !bool_decide_eq_false_2 by exact Hout.
      destruct (IH files) as [Hok Hfiles].
      split; [exact Hok |]. intros p. rewrite Hfiles. split.
      * intros [Hp Hrest]. split; [exact Hp |].
        intros (f & [<- | Hf] & ->); [exact (Hout Hp) |].
        apply Hrest. exists f. split; [exact Hf | reflexivity].
      * intros [Hp Hnone]. split; [exact Hp |].
        intros (f & Hf & ->). apply Hnone. exists f.
        split; [right; exact Hf | reflexivity].
Qed.

(** The run of the handler for a batch that is not empty: the pages of the
    loop, the files that it leaves, and what the handler makes of them. *)
Lemma handler_run (uploads : FS) :
  files req <> [] ->
  exists pages fs1,
    (forall p, inTemp p = false -> (p ∈ fs1 <-> p ∈ uploads))
    /\ handler env req uploads
       = match create_error env, ensureDir_error env with
         | Some e, _ => (uploads, Ok (failed e))
         | None, Some e => (uploads, Ok (failed e))
         | None, None =>
           match save env pages with
           | Throw e => (fs1, Ok (failed e))
           | Ok pdfBytes =>
             match writeFile_error env (savedPath env) with
             | Some e => (fs1, Ok (failed e))
             | None =>
               (filter (fun p => inTemp p = false)
                  (cleanUploads (files req) ({[savedPath env]} ∪ fs1)).1,
                Ok {| status := 200;
                      body :=
                        Converted (outputFilename (savedAt env))
                          (String.append "/output/"
                             (outputFilename (savedAt env)))
                          (roundKB (totalOriginalSize (files req)))
                          (roundKB (N.of_nat (length pdfBytes)))
                          (savings (roundKB (N.of_nat (length pdfBytes)))
                             (totalOriginalSize (files req)))
                          "PDF converted successfully" |})
             end
           end
         end.
Proof.
  intros Hsome.
  destruct (convertLoop_shape (assembler env)
              (Compression.quality (compressionSettings req)) (files req)
              {| doc := []; fs := uploads |})
    as (pages & fs1 & Hrun & _ & _).
  cbn [doc fs app] in Hrun.
  exists pages, fs1. split.
  - intros p Hp.
    pose proof (convertLoop_confined (assembler env)
                  (Compression.quality (compressionSettings req)) (files req)
                  {| doc := []; fs := uploads |} p) as Hconf.
    rewrite Hrun in Hconf. cbn [fst fs] in Hconf. apply Hconf.
    rewrite Hp. discriminate.
  - unfold handler. destruct (files req) as [| fileInfo rest] eqn:Hfiles;
      [contradiction |].
    rewrite <- Hfiles in Hrun |- *.
    unfold tryM, bind, fail, runLoop, assemble, liftR, writeFile, removeTemp,
      modify, ret, throw.
    change (outputPath (outputFilename (savedAt env))) with (savedPath env).
    destruct (create_error env) as [e |]; [reflexivity |].
    destruct (ensureDir_error env) as [e |]; [reflexivity |].
    rewrite Hrun. cbn [fs doc bind_result].
    destruct (save env pages) as [pdfBytes | e]; [| reflexivity].
    destruct (writeFile_error env (savedPath env)) as [e |]; [reflexivity |].
    pose proof (cleanUploads_files (files req) ({[savedPath env]} ∪ fs1)) as [Hok _].
    destruct (cleanUploads (files req) ({[savedPath env]} ∪ fs1)) as [fs2 r].
    cbn [snd] in Hok. subst r. reflexivity.
Qed.




End ConvertHandler.




(** ** The saving that is reported *)

Section Savings.

Import Convert.

Local Open Scope Q_scope.

Lemma quotient_nonneg (a b : N) :
  b <> 0%N ->
  0 <= inject_Z (Z.of_N a) / (inject_Z (Z.of_N b) / inject_Z 1024).
Proof.
  intros Hb.
  assert (Hd : 0 < inject_Z (Z.of_N b) / inject_Z 1024).
  { apply Qlt_shift_div_l; [reflexivity |]. rewrite Qmult_0_l.
    rewrite <- (Zlt_Qlt 0). lia. }
  apply Qle_shift_div_l; [exact Hd |]. rewrite Qmult_0_l.
  rewrite <- (Zle_Qle 0). lia.
Qed.

Lemma quotient_at_least_1 (a b : N) :
  b <> 0%N -> (b <= a * 1024)%N ->
  1 <= inject_Z (Z.of_N a) / (inject_Z (Z.of_N b) / inject_Z 1024).
Proof.
  intros Hb Hle.
  assert (Hd : 0 < inject_Z (Z.of_N b) / inject_Z 1024).
  { apply Qlt_shift_div_l; [reflexivity |]. rewrite Qmult_0_l.
    rewrite <- (Zlt_Qlt 0). lia. }
  apply Qle_shift_div_l; [exact Hd |]. rewrite Qmult_1_l.
  apply Qle_shift_div_r; [reflexivity |].
  rewrite <- inject_Z_mult, <- Zle_Qle. lia.
Qed.


End Savings.


(** ** When a conversion fails *)

Section Faults.

Import Render Outcome.

Variable env : Env.
Variable outputPath : string.

Lemma createErrorImage_throws (errorMessage : jsstring) (fs fs' : FS)
  (e : JsError) :
  createErrorImage env outputPath errorMessage fs = (fs', Throw e) ->
  sharp_error env InBlank (Jpeg 95) = Some e.
Proof.
  unfold createErrorImage, tryM, bind, toFile, ret.
  destruct (sharp_error env (InSvg _) (Jpeg 95)); [| discriminate].
  destruct (sharp_error env InBlank (Jpeg 95)); [| discriminate].
  intros Heq. inversion Heq. reflexivity.
Qed.

Lemma createErrorImage_drawn (errorMessage : jsstring) :
  ensures (drawnTwice env outputPath)
    (createErrorImage env outputPath errorMessage).
Proof.
  unfold createErrorImage. apply ensures_tryM; [| intros e];
    apply ensures_toFile_true; intros fs Hfalse; discriminate Hfalse.
Qed.

Lemma createSimpleTextImage_false (text fileType : jsstring)
  (fs fs' : FS) :
  createSimpleTextImage env text outputPath fileType fs = (fs', Ok RFalse) ->
  sharp_error env InBlank Png <> None
  \/ exists title n,
       sharp_error env (InComposite (TitleSvg title n)) (Jpeg 95) <> None.
Proof.
  unfold createSimpleTextImage, tryM, bind, toFile, toBuffer, ret, throw.
  destruct (sharp_error env InBlank Png) eqn:Hblank;
    [intros _; left; discriminate |].
  destruct (sharp_error env (InComposite _) (Jpeg 95)) eqn:Htitle.
  - intros _. right. eexists _, _. rewrite Htitle. discriminate.
  - intros Heq. inversion Heq.
Qed.

Lemma createTextImage_drawn (text fileType : jsstring) :
  ensures (drawnTwice env outputPath)
    (createTextImage env text outputPath fileType).
Proof.
  intros fs fs' r.
  unfold createTextImage. unfold tryM, bind, toFile, unlinkSync, ret.
  destruct (sharp_error env (InSvg _) Png) eqn:Hsvg.
  { intros Hrun ->. split.
    - left. eexists. rewrite Hsvg. discriminate.
    - exact (createSimpleTextImage_false _ _ _ _ Hrun). }
  destruct (sharp_error env (InFile _) (Jpeg 95)) eqn:Hjpg.
  { intros Hrun ->. split.
    - right. rewrite Hjpg. discriminate.
    - exact (createSimpleTextImage_false _ _ _ _ Hrun). }
  destruct (bool_decide _); intros Heq Hfalse; inversion Heq; congruence.
Qed.

Lemma textBranch_drawn (extraction : result jsstring)
  (fileType : jsstring) (diagnostic : JsError -> jsstring) :
  ensures (drawnTwice env outputPath)
    (textBranch env extraction outputPath fileType diagnostic).
Proof.
  unfold textBranch. apply ensures_tryM.
  - apply ensures_bind. intros text. apply createTextImage_drawn.
  - intros e. apply createErrorImage_drawn.
Qed.

(** X26: a conversion fails only when sharp fails. [convertToImage] throws
    only the error with which sharp refuses to write a blank page, the
    last fallback of the error image; and it returns [false] only after
    sharp has failed both on the page of text (drawing it or re-encoding
    it) and on the page that only names the file. Whatever the readers of
    documents, sheets and encodings do, with a sharp that works the
    conversion returns [true], or ['pdf'] for a PDF. *)
Theorem X26_conversion_fails_only_with_sharp (filePath fileType : string)
  (fs : FS) :
  (forall fs' e,
     convertToImage env filePath outputPath fileType fs = (fs', Throw e) ->
     sharp_error env InBlank (Jpeg 95) = Some e)
  /\ (forall fs',
       convertToImage env filePath outputPath fileType fs = (fs', Ok RFalse) ->
       ((exists page, sharp_error env (InSvg (TextSvg page)) Png <> None)
        \/ sharp_error env (InFile (Path.pngPath outputPath)) (Jpeg 95)
           <> None)
       /\ (sharp_error env InBlank Png <> None
           \/ exists title n,
                sharp_error env (InComposite (TitleSvg title n)) (Jpeg 95)
                <> None))
  /\ ((forall input format, sharp_error env input format = None) ->
      (convertToImage env filePath outputPath fileType fs).2 = Ok RTrue
      \/ (convertToImage env filePath outputPath fileType fs).2 = Ok RPdf).
Proof.
  assert (Hthrow :
    forall fs' e,
      convertToImage env filePath outputPath fileType fs = (fs', Throw e) ->
      sharp_error env InBlank (Jpeg 95) = Some e).
  { intros fs' e. unfold convertToImage, tryM.
    match goal with
    | |- (let (_, _) := ?body fs in _) = _ -> _ =>
      destruct (body fs) as [fs1 [r | e1]]
    end; [discriminate |].
    apply createErrorImage_throws. }
  assert (Hfalse : ensures (drawnTwice env outputPath)
                     (convertToImage env filePath outputPath fileType)).
  { unfold convertToImage.
    apply ensures_tryM; [| intros e; apply createErrorImage_drawn].
    destruct (isImageExt _);
      [apply ensures_toFile_true; intros files H; discriminate H |].
    repeat match goal with
           | |- ensures _ (if ?b then _ else _) =>
             destruct b; [try apply textBranch_drawn |]
           end.
    - apply ensures_ret. intros files H. discriminate H.
    - apply ensures_tryM; [| intros e; apply createErrorImage_drawn].
      apply ensures_bind. intros textContent.
      destruct (_ && _);
        [apply createTextImage_drawn | apply createErrorImage_drawn]. }
  split; [exact Hthrow |].
  split; [intros fs' Hrun; exact (Hfalse fs fs' RFalse Hrun eq_refl) |].
  intros Hsharp.
  destruct (convertToImage env filePath outputPath fileType fs)
    as [fs1 [r | e]] eqn:Hrun; cbn [snd].
  - destruct r; [left; reflexivity | exfalso | right; reflexivity].
    destruct (Hfalse fs fs1 RFalse Hrun eq_refl) as [[[page Hp] | Hp] _];
      apply Hp, Hsharp.
  - exfalso. pose proof (Hthrow fs1 e eq_refl) as Hblank.
    rewrite Hsharp in Hblank. discriminate Hblank.
Qed.

End Faults.

(** A text file drawn by a sharp that works. *)
Lemma X26_conversion_fails_only_with_sharp_witness :
  (Render.convertToImage Inputs.quietRender "uploads/notes.txt"
     "temp/temp-42.jpg" "text" ∅).2
  = Ok Render.RTrue.
Proof.
  destruct (X26_conversion_fails_only_with_sharp Inputs.quietRender
              "temp/temp-42.jpg" "uploads/notes.txt" "text" ∅)
    as (_ & _ & Hworks).
  destruct Hworks as [Htrue | Hpdf].
  - intros input format. reflexivity.
  - exact Htrue.
  - vm_compute in Hpdf. discriminate Hpdf.
Defined.

(** ** The routes of the serverless handler *)

Section Routes.

Import Api.

(** X27: the serverless handler serves five routes and the method
    OPTIONS. A request with the method OPTIONS is answered with 200 and an
    empty body whatever its address; any other request outside the five
    routes, and so every request with the methods PUT or DELETE that the
    headers announce, is answered with 404 and "Route not found"; a
    conversion request whose body can be read is answered with success
    although nothing is converted; and no answer has a status other than
    200, 400, 404 or 500. *)
Theorem X27_routes_of_the_serverless_handler (env : Env) (req : Request) :
  (method req = "OPTIONS" -> handler env req = answer 200 Empty)
  /\ (served req = false ->
      handler env req = answer 404 (Error "Route not found"))
  /\ (method req = "PUT" \/ method req = "DELETE" -> served req = false)
  /\ (method req = "POST" -> url req = "/convert" ->
      body_error req = None -> handler env req = answer 200 ComingSoon)
  /\ In (status (handler env req)) [200; 400; 404; 500].
Proof.
  unfold handler, served, routes, static, answer.
  cbn [existsb fst snd].
  split; [intros ->; reflexivity |].
  split.
  { destruct (String.eqb (method req) "OPTIONS"); [discriminate |].
    destruct (String.eqb (method req) "GET"),
             (String.eqb (method req) "POST"),
             (String.eqb (url req) "/"),
             (String.eqb (url req) "/style.css"),
             (String.eqb (url req) "/script.js"),
             (String.eqb (url req) "/upload"),
             (String.eqb (url req) "/convert");
      cbn; intros H; try discriminate H; reflexivity. }
  split; [intros [-> | ->]; reflexivity |].
  split; [intros -> -> ->; reflexivity |].
  destruct (String.eqb (method req) "OPTIONS"); [cbn; tauto |].
  destruct (String.eqb (method req) "GET"),
           (String.eqb (method req) "POST"),
           (String.eqb (url req) "/"),
           (String.eqb (url req) "/style.css"),
           (String.eqb (url req) "/script.js"),
           (String.eqb (url req) "/upload"),
           (String.eqb (url req) "/convert");
    cbn;
    repeat match goal with
           | |- context [match ?x with _ => _ end] => destruct x
           end;
    cbn; tauto.
Qed.

End Routes.

(** The deletion that the page asks for is not a route of this handler. *)
Lemma X27_routes_of_the_serverless_handler_witness :
  Api.handler Inputs.emptySite
    {| Api.method := "DELETE"; Api.url := "/delete/42-notes.txt";
       Api.body_error := None |}
  = Api.answer 404 (Api.Error "Route not found").
Proof.
  destruct (X27_routes_of_the_serverless_handler Inputs.emptySite
              {| Api.method := "DELETE"; Api.url := "/delete/42-notes.txt";
                 Api.body_error := None |}) as (_ & Hmissing & _).
  apply Hmissing. reflexivity.
Defined.

(** ** What the page shows after a conversion *)

Section ShownResult.

Import Assembler Convert Download.

Lemma savings_range (outputSizeKB totalOriginalSize : N) (saving : Z) :
  savings outputSizeKB totalOriginalSize = Some saving ->
  (0 <= saving <= 100)%Z.
Proof.
  unfold savings.
  destruct (N.eqb_spec totalOriginalSize 0) as [Hzero | Hsome].
  - destruct (outputSizeKB =? 0)%N; [discriminate |].
    intros Heq. injection Heq as <-. lia.
  - intros Heq. injection Heq as <-.
    pose proof (quotient_nonneg outputSizeKB totalOriginalSize Hsome)
      as Hnonneg.
    split; [lia |]. apply Z.max_lub; [lia |]. unfold round.
    apply (Z.le_trans _ (Qfloor (201 # 2))); [| cbv; discriminate].
    apply Qfloor_resp_le. change (inject_Z 100) with (100 # 1).
    revert Hnonneg.
    generalize (inject_Z (Z.of_N outputSizeKB)
                / (inject_Z (Z.of_N totalOriginalSize) / inject_Z 1024))%Q.
    intros quotient Hnonneg. lra.
Qed.


End ShownResult.

